(** * SHARPy network interface: UDP channels driven by a selector

    A shallow embedding of [sharpy/io/network_interface.py]: the classes
    [Network], [OutNetwork] and [InNetwork], the module-level selector and
    logger, and the function [get_events].  Python methods become functions
    in a state-and-exception monad over the pair (module globals, [self]);
    a raised exception keeps every mutation made before it, as in Python. *)

From Stdlib Require Import ZArith List String Strings.Byte Lia.
From stdpp Require Import base gmap list strings.

Local Open Scope string_scope.
Local Open Scope list_scope.
Local Open Scope Z_scope.

(** ** Values *)

Definition bytes : Type := list byte.

(** A socket address of family [AF_INET]: the tuple [(host, port)]. *)
Definition Addr : Type := string * Z.

(** A datagram waiting in a socket, or handed to [sendto]. *)
Definition Datagram : Type := bytes * Addr.

(** ** Exceptions and the method monad *)

Inductive Exn : Type :=
| AttributeError     (* attribute access on [None] *)
| TypeError          (* subscript of [None] *)
| ValueError
| KeyError
| OSError
| BlockingIOError    (* non-blocking socket with nothing to read *)
| CodecError         (* raised inside the message codec *)
| NeverReturns.      (* a blocking call that waits forever *)

Inductive Result (A : Type) : Type :=
| Ok (a : A)
| Raise (e : Exn).
Arguments Ok {A} a.
Arguments Raise {A} e.

Definition Py (St A : Type) : Type := St -> Result A * St.

Definition ret {St A} (a : A) : Py St A := fun st => (Ok a, st).

Definition bind {St A B} (m : Py St A) (k : A -> Py St B) : Py St B :=
  fun st =>
    match m st with
    | (Ok a, st') => k a st'
    | (Raise e, st') => (Raise e, st')
    end.

Definition gets {St A} (f : St -> A) : Py St A := fun st => (Ok (f st), st).
Definition modify {St} (f : St -> St) : Py St unit := fun st => (Ok tt, f st).

Declare Scope py_scope.
Delimit Scope py_scope with py.
Notation "x <- m ;; k" := (bind m (fun x => k))
  (at level 100, m at next level, right associativity) : py_scope.
Notation "m ;;; k" := (bind m (fun _ => k))
  (at level 100, right associativity) : py_scope.
Local Open Scope py_scope.

(** [for x in xs: body x]. *)
Fixpoint for_each {St A} (xs : list A) (body : A -> Py St unit) : Py St unit :=
  match xs with
  | [] => ret tt
  | x :: xs' => body x ;;; for_each xs' body
  end.

(** Python truthiness of an [int], and [a and b] on two ints: the result is
    [a] when [a] is falsy and [b] otherwise. *)
Definition truthy (x : Z) : bool := negb (x =? 0).
Definition py_and (a b : Z) : Z := if truthy a then b else a.

(** ** The [selectors] constants *)

Definition EVENT_READ : Z := 1.
Definition EVENT_WRITE : Z := 2.

(** The intersection test "mask includes the event". *)
Definition mask_includes (mask event : Z) : bool := negb (Z.land mask event =? 0).

(** ** Logging: level 20 is INFO, 30 is WARNING; the module logger is
    configured with [level=20], so both are emitted. *)

Inductive LogArg : Type :=
| ArgInt (z : Z)
| ArgStr (s : string)
| ArgAddr (a : Addr).

Record LogRecord : Type := mkLog {
  levelno : Z;
  template : string;
  args : list LogArg
}.

Definition INFO : Z := 20.
Definition WARNING : Z := 30.

(** ** UDP sockets

    The part of [socket.socket] the module uses.  [sock_fd] is the
    descriptor the socket was created with; it also identifies the object.
    [sock_calls] records every method call made on the object, oldest first. *)

Inductive SockCall : Type :=
| CallBind (a : Addr)
| CallSetBlocking (b : bool)
| CallSendTo (msg : bytes) (a : Addr)
| CallRecvFrom (bufsize : Z)
| CallClose.

Record Socket : Type := mkSocket {
  sock_fd : Z;
  sock_closed : bool;
  sock_blocking : bool;
  sock_bound : option Addr;
  sock_inbox : list Datagram;
  sock_calls : list SockCall
}.

Definition called (c : SockCall) (s : Socket) : Socket :=
  mkSocket (sock_fd s) (sock_closed s) (sock_blocking s) (sock_bound s)
           (sock_inbox s) (sock_calls s ++ [c]).

(** [setblocking(flag)]. *)
Definition sock_setblocking (b : bool) (s : Socket) : Result unit * Socket :=
  let s := called (CallSetBlocking b) s in
  if sock_closed s then (Raise OSError, s)
  else (Ok tt, mkSocket (sock_fd s) false b (sock_bound s) (sock_inbox s) (sock_calls s)).

(** [recvfrom(bufsize)]: takes the oldest waiting datagram and returns at
    most [bufsize] bytes of it with the sender's address; the rest of that
    datagram is lost. *)
Definition sock_recvfrom (bufsize : Z) (s : Socket) : Result Datagram * Socket :=
  let s := called (CallRecvFrom bufsize) s in
  if sock_closed s then (Raise OSError, s)
  else if bufsize <? 0 then (Raise ValueError, s)
  else match sock_inbox s with
       | [] => (Raise (if sock_blocking s then NeverReturns else BlockingIOError), s)
       | (payload, sender) :: rest =>
           (Ok (firstn (Z.to_nat bufsize) payload, sender),
            mkSocket (sock_fd s) false (sock_blocking s) (sock_bound s) rest (sock_calls s))
       end.

(** [sendto(msg, address)]: fire and forget. *)
Definition sock_sendto (msg : bytes) (a : Addr) (s : Socket) : Result unit * Socket :=
  let s := called (CallSendTo msg a) s in
  if sock_closed s then (Raise OSError, s) else (Ok tt, s).

(** The datagrams handed to [sendto], oldest first. *)
Definition sent (s : Socket) : list Datagram :=
  flat_map (fun c => match c with CallSendTo m a => [(m, a)] | _ => [] end) (sock_calls s).

(** The buffer sizes passed to [recvfrom], oldest first. *)
Definition requested (s : Socket) : list Z :=
  flat_map (fun c => match c with CallRecvFrom n => [n] | _ => [] end) (sock_calls s).

(** ** Module globals: the selector [sel], the logger, and the host *)

Record Globals : Type := mkGlobals {
  sel : gmap Z Z;           (* registered descriptor -> events mask *)
  log : list LogRecord;     (* records emitted so far, oldest first *)
  in_use : list Addr;       (* addresses bound on this host *)
  next_fd : Z;              (* descriptor of the next socket created *)
  hostname : string
}.

Definition set_sel (m : gmap Z Z) (g : Globals) : Globals :=
  mkGlobals m (log g) (in_use g) (next_fd g) (hostname g).
Definition add_log (r : LogRecord) (g : Globals) : Globals :=
  mkGlobals (sel g) (log g ++ [r]) (in_use g) (next_fd g) (hostname g).
Definition set_in_use (l : list Addr) (g : Globals) : Globals :=
  mkGlobals (sel g) (log g) l (next_fd g) (hostname g).
Definition set_next_fd (n : Z) (g : Globals) : Globals :=
  mkGlobals (sel g) (log g) (in_use g) n (hostname g).

(** ** The parts of [selectors.DefaultSelector] the module uses

    [_fileobj_lookup]: a live socket is looked up by its descriptor; for a
    closed one ([fileno() = -1]) or [None] the selector searches its keys for
    the object itself and raises [ValueError] when it is not there. *)

Definition fileobj_lookup (m : gmap Z Z) (fileobj : option Socket) : Result Z :=
  match fileobj with
  | None => Raise ValueError
  | Some s =>
      if sock_closed s
      then match m !! sock_fd s with
           | Some _ => Ok (sock_fd s)
           | None => Raise ValueError
           end
      else Ok (sock_fd s)
  end.

Definition selector_register (m : gmap Z Z) (fileobj : option Socket) (events : Z)
  : Result (gmap Z Z) :=
  if negb (truthy events)
     || truthy (Z.land events (Z.lnot (Z.lor EVENT_READ EVENT_WRITE)))
  then Raise ValueError
  else match fileobj_lookup m fileobj with
       | Raise e => Raise e
       | Ok fd =>
           match m !! fd with
           | Some _ => Raise KeyError
           | None => Ok (<[fd := events]> m)
           end
       end.

Definition selector_unregister (m : gmap Z Z) (fileobj : option Socket)
  : Result (gmap Z Z) :=
  match fileobj_lookup m fileobj with
  | Raise e => Raise e
  | Ok fd =>
      match m !! fd with
      | Some _ => Ok (delete fd m)
      | None => Raise KeyError
      end
  end.

(** [modify(fileobj, events, data)]: the key must be there; when the events
    differ from the registered ones the socket is unregistered and
    registered again with the new events. *)
Definition selector_modify (m : gmap Z Z) (fileobj : option Socket) (events : Z)
  : Result (gmap Z Z) :=
  match fileobj_lookup m fileobj with
  | Raise e => Raise e
  | Ok fd =>
      match m !! fd with
      | None => Raise KeyError
      | Some registered_events =>
          if events =? registered_events then Ok m
          else match selector_unregister m fileobj with
               | Raise e => Raise e
               | Ok m' => selector_register m' fileobj events
               end
      end
  end.

(** ** Queues

    The channel's queue is handed in by the caller through [set_queue]; the
    module only calls [empty()], [get()] and [put(item)] on it.  [q_get]
    answers [None] where [get()] would wait for an item. *)

Class Queue (Q T : Type) : Type := {
  q_empty : Q -> bool;
  q_put : T -> Q -> Q;
  q_get : Q -> option (T * Q)
}.

(** [queue.Queue()]: first in, first out, unbounded. *)
#[export] Instance fifo_queue (T : Type) : Queue (list T) T := {|
  q_empty q := match q with [] => true | _ => false end;
  q_put x q := q ++ [x];
  q_get q := match q with [] => None | x :: q' => Some (x, q') end
|}.

(** ** Settings

    The settings dictionary after [settings.to_custom_types] has typed the
    entries and filled in the defaults.  [Network] and [InNetwork] read
    [address] and [port] only. *)

Record Settings : Type := mkSettings {
  address : string;
  port : Z;
  send_on_demand : bool;
  destination_address : list string;
  destination_ports : list Z
}.

(** An argument that the code tests with [type(x) is tuple] and
    [type(x) is list]. *)
Inductive AddrArg : Type :=
| ATuple (a : Addr)
| AList (l : list Addr)
| AOther.

(** [logger.info] and [logger.warning] on the module logger. *)
Definition info {S} (tpl : string) (a : list LogArg) : Py (Globals * S) unit :=
  modify (fun st => (add_log (mkLog INFO tpl a) (fst st), snd st)).
Definition warning {S} (tpl : string) (a : list LogArg) : Py (Globals * S) unit :=
  modify (fun st => (add_log (mkLog WARNING tpl a) (fst st), snd st)).

(** Lifts a value-or-exception into the monad. *)
Definition lift {St A} (r : Result A) : Py St A := fun st => (r, st).

(** ** [get_events] *)

Definition get_events (mode : string) : Result Z :=
  if String.eqb mode "r" then Ok EVENT_READ
  else if String.eqb mode "w" then Ok EVENT_WRITE
  else if String.eqb mode "rw" then Ok (Z.lor EVENT_READ EVENT_WRITE)
  else Raise ValueError.

(** ** class Network *)

Module Network.

Record t (Q : Type) : Type := mk {
  addr : option string * option Z;   (* own address *)
  sock : option Socket;
  clients : list Addr;
  queue : option Q;
  settings : option Settings;
  _byte_ordering : string
}.
Arguments mk {Q} _ _ _ _ _ _.
Arguments addr {Q} _.
Arguments sock {Q} _.
Arguments clients {Q} _.
Arguments queue {Q} _.
Arguments settings {Q} _.
Arguments _byte_ordering {Q} _.

Section Methods.
Context {Q : Type}.

Local Abbreviation St := (Globals * t Q)%type.

Definition set_addr (a : option string * option Z) (self : t Q) : t Q :=
  mk a (sock self) (clients self) (queue self) (settings self) (_byte_ordering self).
Definition set_sock (s : option Socket) (self : t Q) : t Q :=
  mk (addr self) s (clients self) (queue self) (settings self) (_byte_ordering self).
Definition set_clients (c : list Addr) (self : t Q) : t Q :=
  mk (addr self) (sock self) c (queue self) (settings self) (_byte_ordering self).
Definition set_settings (c : option Settings) (self : t Q) : t Q :=
  mk (addr self) (sock self) (clients self) (queue self) c (_byte_ordering self).

Definition update (f : t Q -> t Q) : Py St unit :=
  modify (fun st => (fst st, f (snd st))).

(** A method call on [self.sock]; [None] has no such attribute. *)
Definition on_sock {A} (f : Socket -> Result A * Socket) : Py St A :=
  fun st =>
    match sock (snd st) with
    | None => (Raise AttributeError, st)
    | Some s => let (r, s') := f s in (r, (fst st, set_sock (Some s') (snd st)))
    end.

(** [self.settings[...]]; [None] is not subscriptable. *)
Definition setting {A} (key : Settings -> A) : Py St A :=
  fun st =>
    match settings (snd st) with
    | None => (Raise TypeError, st)
    | Some c => (Ok (key c), st)
    end.

Definition __init__ (host : option string) (port : option Z) : t Q :=
  mk (host, port) None [] None None "<".

Definition set_byte_ordering (value : string) : Py St unit :=
  update (fun self =>
    mk (addr self) (sock self) (clients self) (queue self) (settings self) value).

Definition set_queue (q : Q) : Py St unit :=
  update (fun self =>
    mk (addr self) (sock self) (clients self) (Some q) (settings self)
       (_byte_ordering self)).

(** [socket.socket(AF_INET, SOCK_DGRAM)]: a new blocking, unbound socket on
    the next free descriptor. *)
Definition socket_socket : Py St unit :=
  modify (fun st =>
    let g := fst st in
    (set_next_fd (next_fd g + 1) g,
     set_sock (Some (mkSocket (next_fd g) false true None [] [])) (snd st))).

(** [self.sock.bind(address)]: fails on a closed or already bound socket and
    when the address is taken. *)
Definition sock_bind (a : Addr) : Py St unit :=
  fun st =>
    match sock (snd st) with
    | None => (Raise AttributeError, st)
    | Some s0 =>
        let s := called (CallBind a) s0 in
        let st1 := (fst st, set_sock (Some s) (snd st)) in
        if sock_closed s then (Raise OSError, st1)
        else match sock_bound s with
             | Some _ => (Raise OSError, st1)
             | None =>
                 if bool_decide (a ∈ in_use (fst st)) then (Raise OSError, st1)
                 else (Ok tt,
                       (set_in_use (a :: in_use (fst st)) (fst st),
                        set_sock (Some (mkSocket (sock_fd s) false (sock_blocking s)
                                                 (Some a) (sock_inbox s) (sock_calls s)))
                                 (snd st)))
             end
    end.

(** [self.sock.close()]: releases the descriptor and the bound address;
    closing a closed socket does nothing. *)
Definition sock_close : Py St unit :=
  fun st =>
    match sock (snd st) with
    | None => (Raise AttributeError, st)
    | Some s0 =>
        let s := called CallClose s0 in
        if sock_closed s then (Ok tt, (fst st, set_sock (Some s) (snd st)))
        else (Ok tt,
              (match sock_bound s with
               | Some a => set_in_use (filter (fun b => b ≠ a) (in_use (fst st))) (fst st)
               | None => fst st
               end,
               set_sock (Some (mkSocket (sock_fd s) true (sock_blocking s)
                                        (sock_bound s) [] (sock_calls s)))
                        (snd st)))
    end.

(** [sel.register(self.sock, events, data=self)]. *)
Definition sel_register (events : Z) : Py St unit :=
  fun st =>
    match selector_register (sel (fst st)) (sock (snd st)) events with
    | Raise e => (Raise e, st)
    | Ok m => (Ok tt, (set_sel m (fst st), snd st))
    end.

(** [self.sel.unregister(self.sock)]. *)
Definition sel_unregister : Py St unit :=
  fun st =>
    match selector_unregister (sel (fst st)) (sock (snd st)) with
    | Raise e => (Raise e, st)
    | Ok m => (Ok tt, (set_sel m (fst st), snd st))
    end.

Definition initialise (mode : string) (in_settings : Settings) : Py St unit :=
  update (set_settings (Some in_settings)) ;;;
  a <- setting (fun c => (address c, port c)) ;;
  update (set_addr (Some (fst a), Some (snd a))) ;;;
  socket_socket ;;;
  sock_bind a ;;;
  info "Binded socket to {}" [ArgAddr a] ;;;
  events <- lift (get_events mode) ;;
  h <- gets (fun st => hostname (fst st)) ;;
  info "Host: {}" [ArgStr h] ;;;
  on_sock (sock_setblocking false) ;;;
  sel_register events.

Definition _sendto (msg : bytes) (a : Addr) : Py St unit :=
  info "Network - Sending" [] ;;;
  on_sock (sock_sendto msg a) ;;;
  info "Network - Sent data packet to {}" [ArgAddr a].

Definition send (msg : bytes) (dest_addr : AddrArg) : Py St unit :=
  match dest_addr with
  | AList l => for_each l (fun dest => _sendto msg dest)
  | ATuple a => _sendto msg a
  | AOther => ret tt
  end.

Definition _add_client (client_addr : Addr) : Py St unit :=
  cs <- gets (fun st => clients (snd st)) ;;
  if bool_decide (client_addr ∈ cs) then ret tt
  else
    update (set_clients (cs ++ [client_addr])) ;;;
    info "Added new client to list {}" [ArgAddr client_addr].

Definition add_client (client_addr : AddrArg) : Py St unit :=
  match client_addr with
  | ATuple a => _add_client a
  | AList l => for_each l (fun client => _add_client client)
  | AOther => ret tt
  end.

(** The default of [receive]'s [msg_length]. *)
Definition default_msg_length : Z := 1024.

Definition receive (msg_length : Z) : Py St bytes :=
  r <- on_sock (sock_recvfrom msg_length) ;;
  let (r_msg, client_addr) := (r : Datagram) in
  info "Received a {}-byte long data packet from {}"
       [ArgInt (Z.of_nat (length r_msg)); ArgAddr client_addr] ;;;
  add_client (ATuple client_addr) ;;;
  ret r_msg.

Definition process_events (mask : Z) : Py St unit :=
  info "should not be here" [].

Definition close : Py St unit :=
  sel_unregister ;;;
  info "Unregistered socket from selectors" [] ;;;
  sock_close ;;;
  info "Closed socket" [].

(** [sel.modify(self.sock, events, data=self)]. *)
Definition sel_modify (events : Z) : Py St unit :=
  fun st =>
    match selector_modify (sel (fst st)) (sock (snd st)) events with
    | Raise e => (Raise e, st)
    | Ok m => (Ok tt, (set_sel m (fst st), snd st))
    end.

(** Set selector to listen for events: mode is 'r', 'w', or 'rw'. *)
Definition _set_selector_events_mask (mode : string) : Py St unit :=
  events <- lift (get_events mode) ;;
  info "Modifying selector to {}" [ArgStr mode] ;;;
  sel_modify events.

(** Not a method: a peer's datagram reaches the channel's socket and waits
    there to be read.  A closed socket receives nothing. *)
Definition deliver (d : Datagram) : Py St unit :=
  on_sock (fun s =>
    (Ok tt,
     if sock_closed s then s
     else mkSocket (sock_fd s) false (sock_blocking s) (sock_bound s)
                   (sock_inbox s ++ [d]) (sock_calls s))).

End Methods.
End Network.

(** ** class OutNetwork(Network)

    [T] is the type of the snapshots in the queue; [encode] is the
    snapshot's own [encode()] method, which lives outside this module. *)

Module OutNetwork.
Section Methods.
Context {Q T : Type} `{Queue Q T}.
Variable encode : T -> Result bytes.

Local Abbreviation St := (Globals * Network.t Q)%type.

(** [self.queue.empty()]. *)
Definition queue_empty : Py St bool :=
  fun st =>
    match Network.queue (snd st) with
    | None => (Raise AttributeError, st)
    | Some q => (Ok (q_empty q), st)
    end.

(** [self.queue.get()]. *)
Definition queue_get : Py St T :=
  fun st =>
    match Network.queue (snd st) with
    | None => (Raise AttributeError, st)
    | Some q =>
        match q_get q with
        | None => (Raise NeverReturns, st)
        | Some (x, q') =>
            let self := snd st in
            (Ok x, (fst st,
                    Network.mk (Network.addr self) (Network.sock self)
                               (Network.clients self) (Some q')
                               (Network.settings self) (Network._byte_ordering self)))
        end
    end.

Definition initialise (mode : string) (in_settings : Settings) : Py St unit :=
  Network.initialise mode in_settings ;;;
  sod <- Network.setting send_on_demand ;;
  dest <- Network.setting destination_address ;;
  (if negb sod && (Z.of_nat (length dest) =? 0)
   then warning "No destination host address provided" []
   else ret tt) ;;;
  ports <- Network.setting destination_ports ;;
  let clients := zip dest ports in
  Network.add_client (AList clients).

Definition process_events (mask : Z) : Py St unit :=
  (if truthy (py_and mask EVENT_READ) then
     sod <- Network.setting send_on_demand ;;
     if sod then
       info "Out Network - waiting for request for data" [] ;;;
       msg <- Network.receive Network.default_msg_length ;;
       info "Received request for data" []
     else ret tt
   else ret tt) ;;;
  ready <- (if truthy (py_and mask EVENT_WRITE)
            then e <- queue_empty ;; ret (negb e)
            else ret false) ;;
  if (ready : bool) then
    info "Out Network ready to receive from the queue" [] ;;;
    set_of_vars <- queue_get ;;
    info "Out Network - got message from queue" [] ;;;
    value <- lift (encode set_of_vars) ;;
    info "Message of length {} bytes ready to send" [ArgInt (Z.of_nat (length value))] ;;;
    cs <- gets (fun st => Network.clients (snd st)) ;;
    Network.send value (AList cs)
  else ret tt.

End Methods.
End OutNetwork.

(** ** class InNetwork(Network)

    [R] is the type of a decoded record; [decoder] is
    [message_interface.decoder], which lives outside this module. *)

Module InNetwork.

Record t (Q : Type) : Type := mk {
  base : Network.t Q;
  _in_message_length : Z;
  _recv_buffer : bytes
}.
Arguments mk {Q} _ _ _.
Arguments base {Q} _.
Arguments _in_message_length {Q} _.
Arguments _recv_buffer {Q} _.

Section Methods.
Context {Q R : Type} `{Queue Q R}.
Variable decoder : bytes -> string -> Result R.

Local Abbreviation St := (Globals * t Q)%type.

(** A method inherited from [Network], run on this object. *)
Definition super {A} (m : Py (Globals * Network.t Q) A) : Py St A :=
  fun st =>
    let self := snd st in
    let (r, st') := m (fst st, base self) in
    (r, (fst st', mk (snd st') (_in_message_length self) (_recv_buffer self))).

Definition set_recv_buffer (b : bytes) (self : t Q) : t Q :=
  mk (base self) (_in_message_length self) b.

Definition update (f : t Q -> t Q) : Py St unit :=
  modify (fun st => (fst st, f (snd st))).

(** [self.queue.put(item)]. *)
Definition queue_put (x : R) : Py St unit :=
  fun st =>
    let self := snd st in
    let b := base self in
    match Network.queue b with
    | None => (Raise AttributeError, st)
    | Some q =>
        (Ok tt, (fst st,
                 mk (Network.mk (Network.addr b) (Network.sock b) (Network.clients b)
                                (Some (q_put x q)) (Network.settings b)
                                (Network._byte_ordering b))
                    (_in_message_length self) (_recv_buffer self)))
    end.

Definition __init__ : t Q :=
  mk (Network.__init__ None None) 1024 [].

Definition set_message_length (value : Z) : Py St unit :=
  update (fun self => mk (base self) value (_recv_buffer self)) ;;;
  n <- gets (fun st => _in_message_length (snd st)) ;;
  info "Set input message size to {} bytes" [ArgInt n].

Definition process_events (mask : Z) : Py St unit :=
  super (Network.on_sock (sock_setblocking false)) ;;;
  if truthy (py_and mask EVENT_READ) then
    n <- gets (fun st => _in_message_length (snd st)) ;;
    info "In Network - waiting for input data of size {}" [ArgInt n] ;;;
    msg <- super (Network.receive n) ;;
    update (fun self => set_recv_buffer (_recv_buffer self ++ msg) self) ;;;
    buf <- gets (fun st => _recv_buffer (snd st)) ;;
    n' <- gets (fun st => _in_message_length (snd st)) ;;
    if Z.of_nat (length buf) =? n' then
      info "In Network - enough bytes read" [] ;;;
      order <- gets (fun st => Network._byte_ordering (base (snd st))) ;;
      list_of_variables <- lift (decoder buf order) ;;
      queue_put list_of_variables ;;;
      info "In Network - put data in the queue" [] ;;;
      update (set_recv_buffer [])
    else ret tt
  else ret tt.

End Methods.
End InNetwork.

(** ** class NetworkLoader

    The loader's settings after [settings.to_custom_types]; the two network
    entries are the settings dictionaries handed to the channels. *)

Record LoaderSettings : Type := mkLoaderSettings {
  variables_filename : option string;
  byte_ordering : string;
  input_network_settings : Settings;
  output_network_settings : Settings
}.

Module NetworkLoader.

(** The entry ['byte_ordering'] of the settings, as opposed to the
    attribute [byte_ordering] of the loader. *)
Local Abbreviation settings_byte_ordering := byte_ordering.

Record t : Type := mk {
  settings : option LoaderSettings;
  byte_ordering : string
}.

Local Abbreviation St := (Globals * t)%type.

Definition __init__ : t := mk None "<".

(** [self.settings[...]]; [None] is not subscriptable. *)
Definition setting {A} (key : LoaderSettings -> A) : Py St A :=
  fun st =>
    match settings (snd st) with
    | None => (Raise TypeError, st)
    | Some c => (Ok (key c), st)
    end.

Definition set_byte_ordering (value : string) : Py St unit :=
  modify (fun st => (fst st, mk (settings (snd st)) value)).

Definition initialise (in_settings : LoaderSettings) : Py St unit :=
  modify (fun st => (fst st, mk (Some in_settings) (byte_ordering (snd st)))) ;;;
  order <- setting settings_byte_ordering ;;
  if String.eqb order "little" then set_byte_ordering "<"
  else if String.eqb order "big" then set_byte_ordering ">"
  else lift (Raise KeyError).



End NetworkLoader.

(** ** Vocabulary of the statements *)

(** [k] calls of a method in a row; the first exception ends the run. *)
Fixpoint times {St} (k : nat) (m : Py St unit) : Py St unit :=
  match k with
  | O => ret tt
  | S k' => m ;;; times k' m
  end.


(** The registry after [_add_client a]: [a] is appended unless present. *)
Definition registered (a : Addr) (cs : list Addr) : list Addr :=
  if bool_decide (a ∈ cs) then cs else cs ++ [a].

(** Removal of duplicates that keeps the first occurrence of every address,
    in the order of the input; [seen] holds the addresses already met. *)
Fixpoint dedup_seen (seen l : list Addr) : list Addr :=
  match l with
  | [] => []
  | x :: l' =>
      if bool_decide (x ∈ seen) then dedup_seen seen l'
      else x :: dedup_seen (x :: seen) l'
  end.
Definition dedup_first (l : list Addr) : list Addr := dedup_seen [] l.

(** The records the input channel writes while it reads. *)
Definition waiting_log (n : Z) : LogRecord :=
  mkLog INFO "In Network - waiting for input data of size {}" [ArgInt n].
Definition received_log (msg : bytes) (a : Addr) : LogRecord :=
  mkLog INFO "Received a {}-byte long data packet from {}"
        [ArgInt (Z.of_nat (length msg)); ArgAddr a].
Definition added_log (a : Addr) : LogRecord :=
  mkLog INFO "Added new client to list {}" [ArgAddr a].

(** A channel is bound when it owns an open socket that the selector has
    registered: the state [initialise] leaves it in. *)
Definition is_bound {Q} (st : Globals * Network.t Q) : bool :=
  match Network.sock (snd st) with
  | Some s => negb (sock_closed s) && bool_decide (is_Some (sel (fst st) !! sock_fd s))
  | None => false
  end.

(** What can happen to the client registry of a channel: a [receive], an
    [add_client], or the arrival of a datagram. *)
Inductive step {Q} : Globals * Network.t Q -> Globals * Network.t Q -> Prop :=
| step_receive n st : step st (snd (Network.receive n st))
| step_add_client arg st : step st (snd (Network.add_client arg st))
| step_deliver d st : step st (snd (Network.deliver d st)).

(** What the channel's socket was asked to read and to send so far. *)
Definition requests_of {Q} (self : Network.t Q) : list Z :=
  match Network.sock self with Some s => requested s | None => [] end.
Definition sent_by {Q} (self : Network.t Q) : list Datagram :=
  match Network.sock self with Some s => sent s | None => [] end.

(** A method preserves a relation when every call, returning or raising,
    leaves a state related to the one it started from. *)
Definition preserves {St A} (R : St -> St -> Prop) (m : Py St A) : Prop :=
  forall st, R st (snd (m st)).

(** What the event handlers leave alone: the selector, the addresses in
    use and the descriptors, the channel's own address, settings and byte
    order, and the identity and state of its socket (same descriptor, not
    closed, not rebound).  Clients are only added, never twice, and the log
    is only appended to. *)
Definition net_frame {Q} (st st' : Globals * Network.t Q) : Prop :=
  sel (fst st') = sel (fst st)
  /\ in_use (fst st') = in_use (fst st)
  /\ next_fd (fst st') = next_fd (fst st)
  /\ Network.addr (snd st') = Network.addr (snd st)
  /\ Network.settings (snd st') = Network.settings (snd st)
  /\ Network._byte_ordering (snd st') = Network._byte_ordering (snd st)
  /\ option_map (fun s => (sock_fd s, sock_closed s, sock_bound s)) (Network.sock (snd st'))
     = option_map (fun s => (sock_fd s, sock_closed s, sock_bound s)) (Network.sock (snd st))
  /\ (forall b, b ∈ Network.clients (snd st) -> b ∈ Network.clients (snd st'))
  /\ (NoDup (Network.clients (snd st)) -> NoDup (Network.clients (snd st')))
  /\ (exists l, log (fst st') = log (fst st) ++ l).

(** The input channel, besides, keeps its expected length and sends
    nothing. *)
Definition in_frame {Q} (st st' : Globals * InNetwork.t Q) : Prop :=
  net_frame (fst st, InNetwork.base (snd st)) (fst st', InNetwork.base (snd st'))
  /\ InNetwork._in_message_length (snd st') = InNetwork._in_message_length (snd st)
  /\ sent_by (InNetwork.base (snd st')) = sent_by (InNetwork.base (snd st)).

(** An input channel has overshot when its buffer is longer than the
    expected length; [overshoot_stays st st'] says that, if [st] has
    overshot, [st'] has too, with the same expected length, a buffer at
    least as long and the same queue. *)
Definition overshoot_stays {Q} (st st' : Globals * InNetwork.t Q) : Prop :=
  InNetwork._in_message_length (snd st) < Z.of_nat (length (InNetwork._recv_buffer (snd st))) ->
  InNetwork._in_message_length (snd st') = InNetwork._in_message_length (snd st)
  /\ (length (InNetwork._recv_buffer (snd st))
      <= length (InNetwork._recv_buffer (snd st')))%nat
  /\ Network.queue (InNetwork.base (snd st')) = Network.queue (InNetwork.base (snd st)).

(** The socket of the input channel after one more successful read. *)
Definition after_read (n : Z) (s : Socket) (rest : list Datagram) : Socket :=
  mkSocket (sock_fd s) false false (sock_bound s) rest
           ((sock_calls s ++ [CallSetBlocking false]) ++ [CallRecvFrom n]).

(** ** Concrete channels used in the examples *)

Module Demo.

Definition g0 : Globals := mkGlobals ∅ [] [] 3 "localhost".

Definition peer_a : Addr := ("10.0.0.1", 5000).
Definition peer_b : Addr := ("10.0.0.2", 5000).
Definition peer_c : Addr := ("10.0.0.3", 6000).

Definition zeros (n : nat) : bytes := repeat x00 n.
Definition ones (n : nat) : bytes := repeat x01 n.

(** A codec whose records are the frames themselves. *)
Definition raw_decoder (b : bytes) (order : string) : Result bytes := Ok b.
Definition raw_encode (b : bytes) : Result bytes := Ok b.

Definition in_settings : Settings := mkSettings "127.0.0.1" 65001 true [] [].
Definition demand_settings : Settings := mkSettings "127.0.0.1" 65000 true [] [].
Definition push_settings_empty : Settings := mkSettings "127.0.0.1" 65000 false [] [].
Definition uneven_settings : Settings :=
  mkSettings "127.0.0.1" 65000 false
             ["10.0.0.1"; "10.0.0.2"; "10.0.0.1"; "10.0.0.3"] [5000; 5001; 5000].

Abbreviation InState := (Globals * InNetwork.t (list bytes))%type.
Abbreviation NetState := (Globals * Network.t (list bytes))%type.

(** [InNetwork()], [set_message_length(n)], [initialise('r', ...)] and
    [set_queue(queue.Queue())]. *)
Definition in_channel (n : Z) : InState :=
  snd ((InNetwork.set_message_length n ;;;
        InNetwork.super (Network.initialise "r" in_settings) ;;;
        InNetwork.super (Network.set_queue [])) (g0, InNetwork.__init__)).

Definition in_arrival (d : Datagram) (st : InState) : InState :=
  snd (InNetwork.super (Network.deliver d) st).

Definition in_event (mask : Z) (st : InState) : InState :=
  snd (InNetwork.process_events raw_decoder mask st).

(** Expected length 100: 60 bytes wait to be read; they are read; then 80
    more bytes wait to be read. *)
Definition in100_pending60 : InState := in_arrival (zeros 60, peer_a) (in_channel 100).
Definition in100_has60 : InState := in_event EVENT_READ in100_pending60.
Definition in100_has60_pending80 : InState := in_arrival (zeros 80, peer_a) in100_has60.

(** Expected length 1024: datagrams of 300, 300 and 424 bytes wait to be
    read, and the first two have been read. *)
Definition in1024_pending3 : InState :=
  in_arrival (ones 424, peer_a)
    (in_arrival (zeros 300, peer_a) (in_arrival (zeros 300, peer_a) (in_channel 1024))).
Definition in1024_has600 : InState := in_event EVENT_READ (in_event EVENT_READ in1024_pending3).

(** [Network()] after [initialise('rw', ...)]. *)
Definition net_channel : NetState :=
  snd (Network.initialise "rw" in_settings (g0, Network.__init__ None None)).

Definition net_arrival (d : Datagram) (st : NetState) : NetState :=
  snd (Network.deliver d st).

(** Three datagrams of one peer wait to be read. *)
Definition net_three_from_a : NetState :=
  net_arrival (zeros 4, peer_a)
    (net_arrival (ones 4, peer_a) (net_arrival (zeros 8, peer_a) net_channel)).

(** [OutNetwork()] in on-demand mode with two snapshots queued; [peer_a]
    has asked once and has been answered; now [peer_c] asks. *)
Definition out_channel : NetState :=
  snd ((OutNetwork.initialise "rw" demand_settings ;;;
        Network.set_queue [zeros 8; ones 8]) (g0, Network.__init__ None None)).
Definition out_answered_a : NetState :=
  snd (OutNetwork.process_events raw_encode (Z.lor EVENT_READ EVENT_WRITE)
         (net_arrival ([], peer_a) out_channel)).
Definition out_asked_by_c : NetState := net_arrival ([], peer_c) out_answered_a.

(** [OutNetwork()] in on-demand mode with an empty queue; [peer_a] asks. *)
Definition out_channel_idle : NetState :=
  snd ((OutNetwork.initialise "rw" demand_settings ;;;
        Network.set_queue []) (g0, Network.__init__ None None)).
Definition out_idle_asked_by_a : NetState := net_arrival ([], peer_a) out_channel_idle.


(** Expected length 100: the 80 bytes have been read on top of the 60. *)
Definition in100_has140 : InState := in_event EVENT_READ in100_has60_pending80.


(** Expected length 4: a datagram of 8 bytes waits to be read. *)
Definition in4_pending8 : InState := in_arrival (zeros 8, peer_a) (in_channel 4).

(** A decoder that refuses every frame. *)
Definition failing_decoder (b : bytes) (order : string) : Result bytes := Raise ValueError.

End Demo.

(** * Properties *)

(** ** The readiness test and the registry *)

Lemma includes_truthy mask e : mask_includes mask e = true -> truthy mask = true.
Proof.
  unfold mask_includes, truthy. intros Hm.
  destruct (Z.eqb_spec mask 0) as [->|]; [|reflexivity].
  rewrite Z.land_0_l in Hm. discriminate.
Qed.

(** [mask and EVENT] is truthy exactly when [mask] is not zero. *)
Lemma py_and_truthy mask e : truthy e = true -> truthy (py_and mask e) = truthy mask.
Proof. unfold py_and. intros He. destruct (truthy mask) eqn:E; auto. Qed.

Lemma registered_in a cs : a ∈ cs -> registered a cs = cs.
Proof. intros. unfold registered. rewrite bool_decide_eq_true_2; auto. Qed.

Lemma registered_out a cs : a ∉ cs -> registered a cs = cs ++ [a].
Proof. intros. unfold registered. rewrite bool_decide_eq_false_2; auto. Qed.

Lemma registered_NoDup a cs : NoDup cs -> NoDup (registered a cs).
Proof.
  intros Hnd. destruct (decide (a ∈ cs)) as [Hin|Hout].
  - rewrite registered_in; assumption.
  - rewrite registered_out by assumption.
    apply NoDup_app. split; [assumption|]. split.
    + intros x Hx Hx'. apply list_elem_of_singleton in Hx'. subst. contradiction.
    + apply NoDup_singleton.
Qed.

Lemma registered_elem a cs : a ∈ registered a cs.
Proof.
  destruct (decide (a ∈ cs)) as [Hin|Hout].
  - rewrite registered_in; assumption.
  - rewrite registered_out by assumption.
    apply elem_of_app. right. apply list_elem_of_singleton. reflexivity.
Qed.

Lemma registered_mono a b cs : b ∈ cs -> b ∈ registered a cs.
Proof.
  intros Hb. destruct (decide (a ∈ cs)) as [Hin|Hout].
  - rewrite registered_in; assumption.
  - rewrite registered_out by assumption. apply elem_of_app. auto.
Qed.

Lemma fold_registered_NoDup l cs :
  NoDup cs -> NoDup (fold_left (fun cs a => registered a cs) l cs).
Proof. revert cs. induction l; cbn; auto using registered_NoDup. Qed.

Lemma fold_registered_mono l cs b :
  b ∈ cs -> b ∈ fold_left (fun cs a => registered a cs) l cs.
Proof. revert cs. induction l; cbn; auto using registered_mono. Qed.

(** Adding a list of addresses one by one to a registry is the removal of
    duplicates that keeps first occurrences. *)
Lemma fold_registered_dedup l : forall seen cs,
  (forall x, x ∈ seen <-> x ∈ cs) ->
  fold_left (fun cs a => registered a cs) l cs = cs ++ dedup_seen seen l.
Proof.
  induction l as [|a l IH]; intros seen cs Hs; cbn; [rewrite app_nil_r; reflexivity|].
  destruct (decide (a ∈ cs)) as [Hin|Hout].
  - rewrite registered_in by assumption.
    rewrite bool_decide_eq_true_2 by (apply Hs; assumption). apply IH, Hs.
  - rewrite registered_out by assumption.
    rewrite bool_decide_eq_false_2 by (rewrite Hs; assumption).
    rewrite (IH (a :: seen) (cs ++ [a])).
    + rewrite <- app_assoc. reflexivity.
    + intros x. rewrite elem_of_cons, elem_of_app, list_elem_of_singleton, Hs. tauto.
Qed.

Lemma dedup_seen_spec l : forall seen,
  NoDup (dedup_seen seen l)
  /\ forall x, x ∈ dedup_seen seen l <-> x ∈ l /\ x ∉ seen.
Proof.
  induction l as [|a l IH]; intros seen; cbn.
  - split; [constructor|]. intros x. rewrite elem_of_nil. tauto.
  - case_bool_decide as Ha.
    + destruct (IH seen) as [Hnd Hel]. split; [assumption|].
      intros x. rewrite Hel, elem_of_cons. split; [tauto|].
      intros [[->|Hx] Hn]; [contradiction|tauto].
    + destruct (IH (a :: seen)) as [Hnd Hel]. split.
      * constructor; [|assumption]. rewrite Hel. rewrite elem_of_cons. tauto.
      * intros x. rewrite !elem_of_cons, Hel, elem_of_cons.
        destruct (decide (x = a)) as [->|Hne]; tauto.
Qed.

Lemma filter_absent (a : Addr) cs : a ∉ cs -> filter (fun x => x = a) cs = [].
Proof.
  induction cs as [|x l IH]; intros Ha; [reflexivity|].
  apply not_elem_of_cons in Ha as [Hne Ha].
  rewrite filter_cons. case_decide; [congruence|auto].
Qed.

(** In a registry without duplicates a registered address has one entry. *)
Lemma NoDup_count_one (a : Addr) cs :
  NoDup cs -> a ∈ cs -> length (filter (fun x => x = a) cs) = 1%nat.
Proof.
  induction 1 as [|x l Hx Hnd IH]; intros Ha.
  - apply elem_of_nil in Ha. contradiction.
  - rewrite filter_cons. case_decide as Hxa.
    + subst x. rewrite filter_absent by assumption. reflexivity.
    + apply elem_of_cons in Ha as [->|Ha]; [congruence|auto].
Qed.

Lemma get_events_valid mode ev :
  get_events mode = Ok ev -> ev = 1 \/ ev = 2 \/ ev = 3.
Proof.
  unfold get_events.
  repeat (destruct (String.eqb mode _)); intros [= <-]; auto.
Qed.

(** ** Methods of [Network] *)

Section NetworkFacts.
Context {Q : Type}.
Local Abbreviation St := (Globals * Network.t Q)%type.

Lemma _add_client_clients a (st : St) :
  fst (Network._add_client a st) = Ok tt
  /\ Network.clients (snd (snd (Network._add_client a st))) =
     registered a (Network.clients (snd st)).
Proof.
  destruct st as [g self]. unfold Network._add_client, registered, bind, gets. cbn.
  case_bool_decide; cbn; auto.
Qed.

Lemma add_client_list_clients l (st : St) :
  fst (Network.add_client (AList l) st) = Ok tt
  /\ Network.clients (snd (snd (Network.add_client (AList l) st))) =
     fold_left (fun cs a => registered a cs) l (Network.clients (snd st)).
Proof.
  cbn. revert st. induction l as [|a l IH]; intros st; cbn; [auto|].
  unfold bind.
  destruct (_add_client_clients a st) as [Hr Hc].
  destruct (Network._add_client a st) as [r st1]. cbn in Hr, Hc. subst r.
  rewrite <- Hc. apply IH.
Qed.

(** A [receive] on an open socket with a datagram waiting. *)
Lemma receive_ok (n : Z) (g : Globals) (self : Network.t Q) s d a rest :
  Network.sock self = Some s -> sock_closed s = false -> 0 <= n ->
  sock_inbox s = (d, a) :: rest ->
  exists g',
    Network.receive n (g, self) =
      (Ok (firstn (Z.to_nat n) d),
       (g', Network.mk (Network.addr self)
              (Some (mkSocket (sock_fd s) false (sock_blocking s) (sock_bound s) rest
                              (sock_calls s ++ [CallRecvFrom n])))
              (registered a (Network.clients self)) (Network.queue self)
              (Network.settings self) (Network._byte_ordering self)))
    /\ sel g' = sel g
    /\ log g' = log g ++ received_log (firstn (Z.to_nat n) d) a ::
                 (if bool_decide (a ∈ Network.clients self) then [] else [added_log a]).
Proof.
  intros Hs Hc Hn Hi.
  destruct self as [ad sk cs q cfg bo]. destruct s as [fd cl bl bd ib calls].
  simpl in *. subst.
  unfold Network.receive, bind, Network.on_sock, sock_recvfrom, called. cbn.
  destruct (Z.ltb_spec n 0); [lia|].
  unfold registered, Network.update, ret, modify, info.
  repeat case_bool_decide; try contradiction; cbn;
    eexists; (split; [reflexivity|]); cbn; rewrite <- ?app_assoc; auto.
Qed.

(** Every [receive] either raises and leaves the registry alone, or returns
    the head of the waiting datagram and registers its sender. *)
Lemma receive_cases n (st : St) :
  let out := Network.receive n st in
  (exists e, fst out = Raise e
             /\ Network.clients (snd (snd out)) = Network.clients (snd st))
  \/ (exists s d a rest,
        Network.sock (snd st) = Some s /\ sock_closed s = false /\ 0 <= n
        /\ sock_inbox s = (d, a) :: rest
        /\ fst out = Ok (firstn (Z.to_nat n) d)
        /\ Network.clients (snd (snd out)) = registered a (Network.clients (snd st))).
Proof.
  destruct st as [g [ad sk cs q c0 bo]]. cbn.
  unfold Network.receive, bind, Network.on_sock, sock_recvfrom, called. cbn.
  destruct sk as [[fd cl bl bd ib calls]|]; cbn; [|left; eauto].
  destruct cl; cbn; [left; eauto|].
  destruct (Z.ltb_spec n 0); cbn; [left; eauto|].
  destruct ib as [|[d a] rest]; cbn; [left; eauto|].
  right. exists {| sock_fd := fd; sock_closed := false; sock_blocking := bl; sock_bound := bd;
                   sock_inbox := (d, a) :: rest; sock_calls := calls |}, d, a, rest.
  cbn. unfold registered, Network.update, ret, modify, info.
  repeat case_bool_decide; try contradiction; cbn; auto 10.
Qed.


(** No step duplicates an entry of the registry or removes one. *)
Lemma step_clients (st st' : St) :
  step st st' ->
  (NoDup (Network.clients (snd st)) -> NoDup (Network.clients (snd st')))
  /\ (forall b, b ∈ Network.clients (snd st) -> b ∈ Network.clients (snd st')).
Proof.
  intros [n st0|arg st0|d st0].
  - destruct (receive_cases n st0) as [(e & _ & Hc)|(s & d & a & rest & _ & _ & _ & _ & _ & Hc)];
      cbn in Hc; rewrite Hc; auto using registered_NoDup, registered_mono.
  - destruct arg as [a|l|].
    + unfold Network.add_client. rewrite (proj2 (_add_client_clients a st0)).
      auto using registered_NoDup, registered_mono.
    + rewrite (proj2 (add_client_list_clients l st0)).
      auto using fold_registered_NoDup, fold_registered_mono.
    + cbn. auto.
  - destruct st0 as [g [ad sk cs q c0 bo]]. unfold Network.deliver, Network.on_sock. cbn.
    destruct sk; cbn; auto.
Qed.

Lemma steps_clients (st st' : St) :
  rtc step st st' ->
  (NoDup (Network.clients (snd st)) -> NoDup (Network.clients (snd st')))
  /\ (forall b, b ∈ Network.clients (snd st) -> b ∈ Network.clients (snd st')).
Proof.
  induction 1 as [st|st st1 st2 H1 _ [IHn IHm]]; [auto|].
  destruct (step_clients _ _ H1) as [Hn Hm]. auto.
Qed.

(** [initialise] leaves the channel bound. *)
Lemma initialise_bound mode cfg (st st1 : St) :
  Network.initialise mode cfg st = (Ok tt, st1) -> is_bound st1 = true.
Proof.
  destruct st as [g [ad sk cs q c0 bo]].
  unfold Network.initialise, bind, Network.update, Network.setting, Network.socket_socket,
    Network.sock_bind, modify, lift, gets, info, Network.on_sock, Network.sel_register. cbn.
  case_bool_decide; cbn; [discriminate|].
  destruct (get_events mode) as [ev|e] eqn:Hev; cbn; [|discriminate].
  unfold selector_register. cbn.
  destruct (get_events_valid _ _ Hev) as [->|[->| ->]]; cbn;
    destruct (sel g !! next_fd g) eqn:Hl; cbn; try discriminate;
    intros [= <-]; unfold is_bound; cbn; rewrite lookup_insert_eq; reflexivity.
Qed.

(** C6, as the code has it.  On a bound channel (the state [initialise]
    leaves, see [initialise_bound]) the first [close()] returns normally,
    unregisters the socket from the selector and closes it.  A second
    [close()] right after it is not a no-op: [sel.unregister] no longer finds
    the closed socket and raises [ValueError]; the channel is left as the
    first call left it. *)
Theorem C6_second_close_raises (st1 : St) :
  is_bound st1 = true ->
  exists st2 s2,
    Network.close st1 = (Ok tt, st2)
    /\ Network.sock (snd st2) = Some s2
    /\ sock_closed s2 = true
    /\ sel (fst st2) !! sock_fd s2 = None
    /\ Network.close st2 = (Raise ValueError, st2).
Proof.
  destruct st1 as [g [ad sk cs q c0 bo]]. unfold is_bound. cbn.
  destruct sk as [[fd cl bl bd ib calls]|]; [|discriminate]. cbn.
  destruct cl; [discriminate|]. cbn. case_bool_decide as Hreg; [|discriminate].
  intros _. destruct Hreg as [ev Hreg].
  unfold Network.close, bind, Network.sel_unregister, selector_unregister, fileobj_lookup. cbn.
  rewrite Hreg. cbn.
  do 2 eexists. split; [reflexivity|]. cbn.
  split; [reflexivity|]. split; [reflexivity|]. cbn.
  split; [destruct bd; cbn; apply lookup_delete_eq|].
  destruct bd; cbn; rewrite lookup_delete_eq; reflexivity.
Qed.

(** C8.  The client registry never holds an address twice.  Whatever
    sequence of [receive] calls, [add_client] calls and datagram arrivals a
    channel goes through, a registry without duplicates (the empty registry
    of a new channel is one) stays without duplicates, every registered
    address has exactly one entry, and adding a registered address again
    changes nothing.  In particular, once a datagram of a peer has been
    received, that peer has exactly one entry however many more datagrams
    are received afterwards. *)
Theorem C8_registry_has_no_duplicates :
  (forall (st st' : St),
      NoDup (Network.clients (snd st)) ->
      rtc step st st' ->
      NoDup (Network.clients (snd st'))
      /\ forall a, a ∈ Network.clients (snd st') ->
                   Network._add_client a st' = (Ok tt, st')
                   /\ length (filter (fun x => x = a) (Network.clients (snd st'))) = 1%nat)
  /\ (forall (st st1 st' : St) n msg s d a rest,
         NoDup (Network.clients (snd st)) ->
         Network.sock (snd st) = Some s ->
         sock_inbox s = (d, a) :: rest ->
         Network.receive n st = (Ok msg, st1) ->
         rtc step st1 st' ->
         length (filter (fun x => x = a) (Network.clients (snd st'))) = 1%nat).
Proof.
  split.
  - intros st st' Hnd Hsteps.
    destruct (steps_clients _ _ Hsteps) as [Hn _]. specialize (Hn Hnd).
    split; [assumption|]. intros a Ha. split; [|apply NoDup_count_one; assumption].
    destruct st' as [g self]. unfold Network._add_client, bind, gets. cbn in *.
    rewrite bool_decide_eq_true_2 by assumption. reflexivity.
  - intros st st1 st' n msg s d a rest Hnd Hs Hi Hr Hsteps.
    destruct (receive_cases n st)
      as [(e & He & _)|(s0 & d0 & a0 & rest0 & Hs0 & _ & _ & Hi0 & _ & Hc)];
      rewrite Hr in *; cbn in *; [discriminate|].
    rewrite Hs in Hs0. injection Hs0 as <-. rewrite Hi in Hi0. injection Hi0 as <- <- <-.
    destruct (steps_clients _ _ Hsteps) as [Hn Hm].
    apply NoDup_count_one.
    + apply Hn. rewrite Hc. apply registered_NoDup, Hnd.
    + apply Hm. rewrite Hc. apply registered_elem.
Qed.

(** C9, as the code has it.  A successful [receive(maxBytes)] returns the
    raw bytes read and nothing else: the first [maxBytes] bytes of the
    waiting datagram, so at most [maxBytes] of them.  The sender's address
    is not part of the returned value; it is registered in [clients]. *)
Theorem C9_receive_returns_bytes_only n (st st' : St) (msg : bytes) :
  Network.receive n st = (Ok msg, st') ->
  exists s d a rest,
    Network.sock (snd st) = Some s
    /\ sock_inbox s = (d, a) :: rest
    /\ msg = firstn (Z.to_nat n) d
    /\ Z.of_nat (length msg) <= n
    /\ a ∈ Network.clients (snd st').
Proof.
  intros Hr.
  destruct (receive_cases n st)
    as [(e & He & _)|(s & d & a & rest & Hs & Hc & Hn & Hi & Ho & Hcs)];
    rewrite Hr in *; cbn in *; [discriminate|].
  injection Ho as ->. exists s, d, a, rest. repeat split; auto.
  - rewrite length_take. lia.
  - rewrite Hcs. apply registered_elem.
Qed.

End NetworkFacts.

(** ** Methods of [OutNetwork] *)

Section OutNetworkFacts.
Context {Q T : Type} `{Queue Q T}.
Variable encode : T -> Result bytes.
Local Abbreviation St := (Globals * Network.t Q)%type.


(** C10.  [initialise] of a new output channel, in push mode and in
    on-demand mode alike, succeeds when the mode string is valid, the own
    address is free and the new descriptor is not registered yet; the client
    registry then holds the positional pairs of [destination_address] and
    [destination_ports], without duplicates and in the order of first
    occurrence.  The pairing stops at the end of the shorter list: what the
    longer list has beyond that is dropped, and no error is raised. *)
Theorem C10_clients_are_the_zipped_destinations
    (mode : string) (cfg : Settings) (st : St) (ev : Z) :
  Network.clients (snd st) = [] ->
  get_events mode = Ok ev ->
  (address cfg, port cfg) ∉ in_use (fst st) ->
  sel (fst st) !! next_fd (fst st) = None ->
  let out := OutNetwork.initialise mode cfg st in
  let pairs := zip (destination_address cfg) (destination_ports cfg) in
  let cs' := Network.clients (snd (snd out)) in
  fst out = Ok tt
  /\ cs' = dedup_first pairs
  /\ NoDup cs'
  /\ (forall a, a ∈ cs' <-> a ∈ pairs)
  /\ length pairs
     = Nat.min (length (destination_address cfg)) (length (destination_ports cfg)).
Proof.
  intros Hcs Hev Hfree Hfd out pairs cs'. subst out pairs cs'.
  destruct st as [g [ad sk cs q c0 bo]]. cbn in *. subst cs.
  unfold OutNetwork.initialise.
  unfold bind at 1.
  unfold Network.initialise, bind, Network.update, Network.setting, Network.socket_socket,
    Network.sock_bind, modify, lift, gets, info, warning, Network.on_sock,
    Network.sel_register. cbn.
  case_bool_decide; [contradiction|]. cbn. rewrite Hev. cbn.
  unfold selector_register. cbn.
  assert (Hv : (negb (truthy ev)
                || truthy (Z.land ev (Z.lnot (Z.lor EVENT_READ EVENT_WRITE)))) = false).
  { destruct (get_events_valid _ _ Hev) as [->|[->| ->]]; reflexivity. }
  rewrite Hv, Hfd. cbn.
  match goal with
  | |- context [if ?b then _ else _] => destruct b
  end; cbn.
  all: match goal with
       | |- context [for_each ?l ?f ?st0] =>
           change (for_each l f st0) with (Network.add_client (AList l) st0);
           destruct (add_client_list_clients l st0) as [Hr Hc];
           destruct (Network.add_client (AList l) st0) as [r st1]
       end; cbn in *; subst r; rewrite Hc;
       rewrite (fold_registered_dedup _ [] []) by tauto; cbn;
       destruct (dedup_seen_spec (zip (destination_address cfg) (destination_ports cfg)) [])
         as [Hnd Hel];
       (split; [reflexivity|]); (split; [reflexivity|]); (split; [exact Hnd|]);
       (split; [|apply length_zip_with]);
       intros a; unfold dedup_first; rewrite Hel, elem_of_nil; tauto.
Qed.

End OutNetworkFacts.

(** ** Methods of [InNetwork] *)

Section InNetworkFacts.
Context {Q R : Type} `{Queue Q R}.
Variable decoder : bytes -> string -> Result R.
Local Abbreviation St := (Globals * InNetwork.t Q)%type.

(** Evaluates the event up to the [receive], which succeeds. *)
Ltac read_datagram Hn :=
  unfold bind, InNetwork.super, Network.on_sock, sock_setblocking, called; cbn;
  match goal with
  | |- context [Network.receive ?m (?g0, ?self0)] =>
      let g' := fresh "g'" in
      let Hr := fresh "Hrecv" in
      let Hsel := fresh "Hsel" in
      let Hlog := fresh "Hlog" in
      edestruct (receive_ok m g0 self0) as (g' & Hr & Hsel & Hlog);
      [| | exact Hn | | rewrite Hr]; [reflexivity..|]
  end; cbn.

(** Evaluates the event up to the [receive], which raises. *)
Ltac no_datagram :=
  unfold Network.receive, bind, Network.on_sock, sock_recvfrom, called; cbn.

(** C1, as the code has it.  When the bytes read on a READ event make the
    buffer strictly longer than the expected length, the handler returns
    normally and no record reaches the queue, but nothing more happens: the
    buffer keeps every accumulated byte instead of being emptied, and the
    only records logged are the two or three that every read logs, none of
    them about a violation. *)
Theorem C1_overshoot_is_kept (st : St) (mask : Z) s d a rest :
  let self := snd st in
  let n := InNetwork._in_message_length self in
  let buf := InNetwork._recv_buffer self ++ firstn (Z.to_nat n) d in
  mask_includes mask EVENT_READ = true ->
  Network.sock (InNetwork.base self) = Some s ->
  sock_closed s = false ->
  sock_inbox s = (d, a) :: rest ->
  0 <= n ->
  n < Z.of_nat (length buf) ->
  let out := InNetwork.process_events decoder mask st in
  fst out = Ok tt
  /\ InNetwork._recv_buffer (snd (snd out)) = buf
  /\ Network.queue (InNetwork.base (snd (snd out))) = Network.queue (InNetwork.base self)
  /\ log (fst (snd out))
     = log (fst st) ++ waiting_log n :: received_log (firstn (Z.to_nat n) d) a ::
         (if bool_decide (a ∈ Network.clients (InNetwork.base self)) then []
          else [added_log a]).
Proof.
  intros self n buf Hm Hs Hc Hi Hn Hlt out. subst out buf n self.
  destruct st as [g [[ad sk cs q cfg bo] len rb]]. destruct s as [fd cl bl bd ib calls].
  simpl in *. subst.
  unfold InNetwork.process_events.
  rewrite py_and_truthy by reflexivity. rewrite (includes_truthy _ _ Hm).
  read_datagram Hn.
  destruct (Z.eqb_spec (Z.of_nat (length (rb ++ take (Z.to_nat len) d))) len); [lia|].
  cbn. repeat split; auto.
  rewrite Hlog. cbn. rewrite <- app_assoc. reflexivity.
Qed.

(** C2, as the code has it.  On every READ event on an open socket the
    channel asks the socket for exactly the expected length, whatever the
    buffer already holds.  So one event lengthens the buffer by at most the
    expected length, and after an event that returns normally the buffer is
    empty or of a length other than the expected one.  The length of the
    buffer is not bounded by the expected length. *)
Theorem C2_requests_the_expected_length (st : St) (mask : Z) (s : Socket) :
  let self := snd st in
  let n := InNetwork._in_message_length self in
  mask_includes mask EVENT_READ = true ->
  Network.sock (InNetwork.base self) = Some s ->
  sock_closed s = false ->
  let out := InNetwork.process_events decoder mask st in
  let self' := snd (snd out) in
  (exists s', Network.sock (InNetwork.base self') = Some s'
              /\ requested s' = requested s ++ [n])
  /\ (length (InNetwork._recv_buffer self')
      <= length (InNetwork._recv_buffer self) + Z.to_nat n)%nat
  /\ (fst out = Ok tt ->
      InNetwork._recv_buffer self' = []
      \/ Z.of_nat (length (InNetwork._recv_buffer self')) <> n).
Proof.
  intros self n Hm Hs Hc out self'. subst out self' n self.
  destruct st as [g [[ad sk cs q cfg bo] len rb]]. destruct s as [fd cl bl bd ib calls].
  simpl in *. subst.
  unfold InNetwork.process_events.
  rewrite py_and_truthy by reflexivity. rewrite (includes_truthy _ _ Hm).
  assert (Hreq : forall blk inbox,
    requested
      {| sock_fd := fd; sock_closed := false; sock_blocking := blk; sock_bound := bd;
         sock_inbox := inbox;
         sock_calls := (calls ++ [CallSetBlocking false]) ++ [CallRecvFrom len] |}
    = flat_map (fun c => match c with CallRecvFrom n => [n] | _ => [] end) calls ++ [len]).
  { intros. unfold requested. cbn. rewrite !flat_map_app. cbn.
    rewrite !app_nil_r. reflexivity. }
  destruct (Z.ltb_spec len 0) as [Hneg|Hn].
  - unfold bind, InNetwork.super, Network.on_sock, sock_setblocking, called. cbn.
    no_datagram. destruct (Z.ltb_spec len 0); [|lia]. cbn.
    split; [eexists; split; [reflexivity|apply Hreq]|split; [lia|discriminate]].
  - destruct ib as [|[d a] rest].
    + unfold bind, InNetwork.super, Network.on_sock, sock_setblocking, called. cbn.
      no_datagram. destruct (Z.ltb_spec len 0); [lia|]. cbn.
      split; [eexists; split; [reflexivity|apply Hreq]|split; [lia|discriminate]].
    + read_datagram Hn.
      assert (Hlen : (length (rb ++ take (Z.to_nat len) d) <= length rb + Z.to_nat len)%nat).
      { rewrite length_app, length_take. lia. }
      destruct (Z.eqb_spec (Z.of_nat (length (rb ++ take (Z.to_nat len) d))) len) as [E|E];
        cbn.
      * destruct (decoder _ bo) as [r|e]; cbn.
        { unfold InNetwork.queue_put. cbn. destruct q as [q0|]; cbn.
          - split; [eexists; split; [reflexivity|apply Hreq]|]. split; [lia|]. auto.
          - split; [eexists; split; [reflexivity|apply Hreq]|].
            split; [exact Hlen|discriminate]. }
        { split; [eexists; split; [reflexivity|apply Hreq]|].
          split; [exact Hlen|discriminate]. }
      * split; [eexists; split; [reflexivity|apply Hreq]|]. split; [exact Hlen|]. auto.
Qed.

(** C7.  For every event: the queue is either left as it was or receives
    exactly one record, and the second happens only when the buffer with the
    bytes just read has exactly the expected length, the record being the
    decoding of that buffer.  Conversely, on a READ event that brings the
    buffer to exactly the expected length, the buffer is decoded, the decoded
    record is put on the queue once, and the buffer is emptied. *)
Theorem C7_exact_length_yields_one_record (st : St) (mask : Z) :
  let self := snd st in
  let n := InNetwork._in_message_length self in
  let order := Network._byte_ordering (InNetwork.base self) in
  let out := InNetwork.process_events decoder mask st in
  let self' := snd (snd out) in
  (Network.queue (InNetwork.base self') = Network.queue (InNetwork.base self)
   \/ exists q r msg,
        Network.queue (InNetwork.base self) = Some q
        /\ Network.queue (InNetwork.base self') = Some (q_put r q)
        /\ Z.of_nat (length (InNetwork._recv_buffer self ++ msg)) = n
        /\ decoder (InNetwork._recv_buffer self ++ msg) order = Ok r)
  /\ (forall s d a rest q r,
        mask_includes mask EVENT_READ = true ->
        Network.sock (InNetwork.base self) = Some s ->
        sock_closed s = false ->
        sock_inbox s = (d, a) :: rest ->
        Network.queue (InNetwork.base self) = Some q ->
        Z.of_nat (length (InNetwork._recv_buffer self ++ firstn (Z.to_nat n) d)) = n ->
        decoder (InNetwork._recv_buffer self ++ firstn (Z.to_nat n) d) order = Ok r ->
        fst out = Ok tt
        /\ Network.queue (InNetwork.base self') = Some (q_put r q)
        /\ InNetwork._recv_buffer self' = []).
Proof.
  destruct st as [g [[ad sk cs q cfg bo] len rb]]. cbn zeta. cbn [snd fst].
  unfold InNetwork.process_events.
  rewrite py_and_truthy by reflexivity.
  unfold bind at 1. unfold InNetwork.super at 1. unfold Network.on_sock at 1. cbn.
  split.
  - destruct sk as [[fd cl bl bd ib calls]|]; cbn; [|left; reflexivity].
    destruct cl; cbn; [left; reflexivity|].
    destruct (truthy mask); cbn; [|left; reflexivity].
    destruct (Z.ltb_spec len 0) as [Hneg|Hn].
    { unfold bind, InNetwork.super. cbn. no_datagram.
      destruct (Z.ltb_spec len 0); [|lia]. cbn. left; reflexivity. }
    destruct ib as [|[d a] rest].
    { unfold bind, InNetwork.super. cbn. no_datagram.
      destruct (Z.ltb_spec len 0); [lia|]. cbn. left; reflexivity. }
    read_datagram Hn.
    destruct (Z.eqb_spec (Z.of_nat (length (rb ++ take (Z.to_nat len) d))) len) as [E|E]; cbn;
      [|left; reflexivity].
    destruct (decoder _ bo) as [r|e] eqn:Hd; cbn; [|left; reflexivity].
    unfold InNetwork.queue_put. cbn. destruct q as [q0|]; cbn; [|left; reflexivity].
    right. exists q0, r, (take (Z.to_nat len) d). auto.
  - intros s d a rest q0 r Hm Hs Hc Hi Hq Hlen Hd.
    destruct s as [fd cl bl bd ib calls]. simpl in *. subst.
    rewrite (includes_truthy _ _ Hm). cbn.
    assert (Hn : 0 <= len) by lia.
    read_datagram Hn.
    rewrite Hlen, Z.eqb_refl. cbn. rewrite Hd. cbn.
    unfold InNetwork.queue_put. cbn. auto.
Qed.

End InNetworkFacts.

(** * Further properties of the module *)

(** ** [get_events] *)

(** X1.  [get_events] accepts exactly the modes 'r', 'w' and 'rw' and raises
    [ValueError] on any other string.  The mask it returns includes READ
    exactly for 'r' and 'rw' and WRITE exactly for 'w' and 'rw', and it is a
    mask that the selector accepts. *)
Theorem X1_get_events_modes (mode : string) :
  match get_events mode with
  | Ok ev =>
      (mode = "r" \/ mode = "w" \/ mode = "rw")
      /\ (mask_includes ev EVENT_READ = true <-> mode = "r" \/ mode = "rw")
      /\ (mask_includes ev EVENT_WRITE = true <-> mode = "w" \/ mode = "rw")
      /\ (negb (truthy ev)
          || truthy (Z.land ev (Z.lnot (Z.lor EVENT_READ EVENT_WRITE)))) = false
  | Raise e => e = ValueError /\ mode <> "r" /\ mode <> "w" /\ mode <> "rw"
  end.
Proof.
  unfold get_events.
  destruct (String.eqb_spec mode "r") as [->|Hr];
    [|destruct (String.eqb_spec mode "w") as [->|Hw];
      [|destruct (String.eqb_spec mode "rw") as [->|Hrw]; [|auto]]].
  all: vm_compute; repeat split; auto; try discriminate;
    intros [E|E]; discriminate.
Qed.

(** ** [Network.initialise], [close] and [_set_selector_events_mask] *)

Section NetworkLifecycle.
Context {Q : Type}.
Local Abbreviation St := (Globals * Network.t Q)%type.

(** Unfolds [Network.initialise] down to the socket and selector calls. *)
Ltac run_initialise :=
  unfold Network.initialise, bind, Network.update, Network.setting, Network.socket_socket,
    Network.sock_bind, modify, lift, gets, info, Network.on_sock, Network.sel_register,
    selector_register; cbn.




(** X4.  [close()] returns normally exactly when the selector knows the
    channel's socket.  It then unregisters the descriptor and leaves the
    socket closed, releasing its address, and does not touch the client
    registry or the queue.  In every other case (no socket yet, a socket
    that is not registered, a socket closed before) it raises and changes
    nothing at all: [KeyError] for an open socket, which therefore stays
    open, and [ValueError] otherwise. *)
Theorem X4_close_needs_registration (st : St) :
  let out := Network.close st in
  match Network.sock (snd st) with
  | None => out = (Raise ValueError, st)
  | Some s =>
      match sel (fst st) !! sock_fd s with
      | None => out = (Raise (if sock_closed s then ValueError else KeyError), st)
      | Some _ =>
          fst out = Ok tt
          /\ sel (fst (snd out)) = delete (sock_fd s) (sel (fst st))
          /\ (exists s', Network.sock (snd (snd out)) = Some s'
                         /\ sock_closed s' = true /\ sock_fd s' = sock_fd s)
          /\ Network.clients (snd (snd out)) = Network.clients (snd st)
          /\ Network.queue (snd (snd out)) = Network.queue (snd st)
          /\ (forall a, sock_closed s = false -> sock_bound s = Some a ->
                        a ∉ in_use (fst (snd out)))
      end
  end.
Proof.
  destruct st as [g [ad sk cs q c0 bo]]. cbn.
  unfold Network.close, bind, Network.sel_unregister, selector_unregister, fileobj_lookup. cbn.
  destruct sk as [[fd cl bl bd ib calls]|]; cbn; [|reflexivity].
  destruct (sel g !! fd) as [ev|] eqn:Hreg; cbn.
  - destruct cl; cbn; rewrite ?Hreg; cbn.
    + repeat split; eauto. intros; discriminate.
    + split; [reflexivity|]. destruct bd as [b|]; cbn.
      * repeat split; eauto. intros a _ [= <-] Hin.
        apply list_elem_of_filter in Hin as [Hne _]. congruence.
      * repeat split; eauto. intros; discriminate.
  - destruct cl; cbn; rewrite ?Hreg; reflexivity.
Qed.



(** X6.  A channel whose [initialise] failed on an invalid mode cannot be
    cleaned up with [close()]: the socket was bound but never registered, so
    [close()] raises [KeyError] before it reaches [sock.close()], and the
    socket stays open with the address in use. *)
Theorem X6_failed_initialise_cannot_be_closed (mode : string) (cfg : Settings) (st : St) :
  get_events mode = Raise ValueError ->
  (address cfg, port cfg) ∉ in_use (fst st) ->
  sel (fst st) !! next_fd (fst st) = None ->
  let st1 := snd (Network.initialise mode cfg st) in
  fst (Network.initialise mode cfg st) = Raise ValueError
  /\ Network.close st1 = (Raise KeyError, st1)
  /\ (address cfg, port cfg) ∈ in_use (fst st1)
  /\ exists s, Network.sock (snd st1) = Some s /\ sock_closed s = false
               /\ sock_bound s = Some (address cfg, port cfg).
Proof.
  intros Hev Hfree Hfd st1. subst st1.
  destruct st as [g [ad sk cs q c0 bo]]. cbn in *.
  run_initialise.
  rewrite bool_decide_eq_false_2 by assumption. cbn. rewrite Hev. cbn.
  split; [reflexivity|]. split.
  - unfold Network.close, bind, Network.sel_unregister, selector_unregister, fileobj_lookup.
    cbn. rewrite Hfd. reflexivity.
  - split; [apply elem_of_cons; auto|]. eexists. repeat split; reflexivity.
Qed.

(** X7.  On a bound channel [_set_selector_events_mask] with a valid mode
    replaces the events the selector watches the socket for by those of the
    mode and changes nothing else of the channel; with an invalid mode it
    raises [ValueError] before anything is logged or modified. *)
Theorem X7_set_selector_events_mask (mode : string) (st : St) :
  is_bound st = true ->
  let out := Network._set_selector_events_mask mode st in
  match get_events mode with
  | Ok ev =>
      fst out = Ok tt
      /\ snd (snd out) = snd st
      /\ is_bound (snd out) = true
      /\ exists s, Network.sock (snd st) = Some s
                   /\ sel (fst (snd out)) = <[sock_fd s := ev]> (sel (fst st))
  | Raise _ => out = (Raise ValueError, st)
  end.
Proof.
  destruct st as [g [ad sk cs q c0 bo]]. unfold is_bound. cbn.
  destruct sk as [[fd cl bl bd ib calls]|]; [|discriminate]. cbn.
  destruct cl; [discriminate|]. cbn. case_bool_decide as Hreg; [|discriminate].
  intros _. destruct Hreg as [old Hreg].
  unfold Network._set_selector_events_mask, bind, lift, info, modify, Network.sel_modify,
    selector_modify, fileobj_lookup. cbn.
  pose proof (Hvalid := get_events_valid mode).
  destruct (get_events mode) as [ev|e] eqn:Hev; cbn.
  - rewrite Hreg. cbn.
    assert (Hv : (negb (truthy ev)
                  || truthy (Z.land ev (Z.lnot (Z.lor EVENT_READ EVENT_WRITE)))) = false).
    { destruct (Hvalid ev eq_refl) as [->|[->| ->]]; reflexivity. }
    destruct (Z.eqb_spec ev old) as [->|Hne]; cbn.
    + rewrite ?Hreg. cbn. repeat split; auto.
      eexists. split; [reflexivity|]. cbn. symmetry. apply insert_id, Hreg.
    + unfold selector_unregister, selector_register, fileobj_lookup. cbn.
      rewrite ?Hreg. cbn. rewrite ?Hv. cbn. rewrite ?lookup_delete_eq. cbn.
      rewrite ?lookup_insert_eq. cbn. repeat split; auto.
      eexists. split; [reflexivity|]. cbn. apply insert_delete_eq.
  - assert (e = ValueError) as ->; [|reflexivity].
    revert Hev. unfold get_events. repeat destruct (String.eqb mode _); congruence.
Qed.





End NetworkLifecycle.

(** ** What the handlers leave alone *)

Section Frames.
Context {St : Type} (R : St -> St -> Prop) `{!Reflexive R} `{!Transitive R}.

Lemma preserves_bind {A B} (m : Py St A) (k : A -> Py St B) :
  preserves R m -> (forall a, preserves R (k a)) -> preserves R (bind m k).
Proof.
  intros Hm Hk st. unfold bind. specialize (Hm st).
  destruct (m st) as [[a|e] st1]; cbn in *; [|assumption].
  etransitivity; [exact Hm|apply Hk].
Qed.

Lemma preserves_pure {A} (f : St -> Result A) : preserves R (fun st => (f st, st)).
Proof. intros st. reflexivity. Qed.

Lemma preserves_for_each {A} (l : list A) (body : A -> Py St unit) :
  (forall a, preserves R (body a)) -> preserves R (for_each l body).
Proof.
  intros Hb. induction l as [|a l IH]; cbn.
  - apply (preserves_pure (fun _ => Ok tt)).
  - apply preserves_bind; auto.
Qed.

Lemma preserves_times (k : nat) (m : Py St unit) :
  preserves R m -> preserves R (times k m).
Proof.
  intros Hm. induction k as [|k IH]; cbn.
  - apply (preserves_pure (fun _ => Ok tt)).
  - apply preserves_bind; auto.
Qed.

End Frames.

Section NetworkFrame.
Context {Q : Type}.
Local Abbreviation St := (Globals * Network.t Q)%type.

#[export] Instance net_frame_refl : Reflexive (@net_frame Q).
Proof. intros st. unfold net_frame. repeat split; auto. exists []. rewrite app_nil_r. reflexivity. Qed.

#[export] Instance net_frame_trans : Transitive (@net_frame Q).
Proof.
  intros a b c (H1 & H2 & H3 & H4 & H5 & H6 & H7 & H8 & H9 & l1 & H10)
               (K1 & K2 & K3 & K4 & K5 & K6 & K7 & K8 & K9 & l2 & K10).
  unfold net_frame. repeat split; try congruence; auto.
  exists (l1 ++ l2). rewrite K10, H10, app_assoc. reflexivity.
Qed.

Lemma frame_info tpl a : preserves (@net_frame Q) (info tpl a).
Proof.
  intros [g self]. unfold net_frame, info, modify. cbn. repeat split; auto. eauto.
Qed.

(** A socket call that keeps descriptor, open state and bound address. *)
Lemma frame_on_sock {A} (f : Socket -> Result A * Socket) :
  (forall s, sock_fd (snd (f s)) = sock_fd s /\ sock_closed (snd (f s)) = sock_closed s
             /\ sock_bound (snd (f s)) = sock_bound s) ->
  preserves (@net_frame Q) (Network.on_sock f).
Proof.
  intros Hf [g [ad sk cs q c0 bo]]. unfold Network.on_sock. cbn.
  destruct sk as [s|]; [|reflexivity].
  specialize (Hf s). destruct (f s) as [r s']. cbn in *. destruct Hf as (H1 & H2 & H3).
  unfold net_frame. cbn. rewrite H1, H2, H3.
  repeat split; auto. exists []. rewrite app_nil_r. reflexivity.
Qed.

Lemma frame_add_client arg : preserves (@net_frame Q) (Network.add_client arg).
Proof.
  assert (H1 : forall a, preserves (@net_frame Q) (Network._add_client a)).
  { intros a [g [ad sk cs q c0 bo]]. unfold Network._add_client, bind, gets, net_frame. cbn.
    case_bool_decide as Hin; cbn.
    - repeat split; auto. exists []. rewrite app_nil_r. reflexivity.
    - repeat split; auto.
      + intros b Hb. apply elem_of_app. auto.
      + intros Hnd. rewrite <- (registered_out _ _ Hin). apply registered_NoDup, Hnd.
      + eauto. }
  destruct arg as [a|l|]; cbn.
  - apply H1.
  - apply preserves_for_each; [apply net_frame_refl|apply net_frame_trans|exact H1].
  - apply net_frame_refl.
Qed.

Lemma frame_receive n : preserves (@net_frame Q) (Network.receive n).
Proof.
  unfold Network.receive. apply preserves_bind; [apply net_frame_trans| |].
  - apply frame_on_sock. intros [fd cl bl bd ib calls]. unfold sock_recvfrom, called. cbn.
    destruct cl; cbn; [auto|]. destruct (n <? 0); cbn; [auto|].
    destruct ib as [|[d a] rest]; cbn; auto.
  - intros [d a]. apply preserves_bind; [apply net_frame_trans|apply frame_info|].
    intros _. apply preserves_bind; [apply net_frame_trans|apply frame_add_client|].
    intros _. apply (preserves_pure _ (fun _ => Ok d)).
Qed.

Lemma frame_send msg dest : preserves (@net_frame Q) (Network.send msg dest).
Proof.
  assert (H1 : forall a, preserves (@net_frame Q) (Network._sendto msg a)).
  { intros a. unfold Network._sendto.
    apply preserves_bind; [apply net_frame_trans|apply frame_info|]. intros _.
    apply preserves_bind; [apply net_frame_trans| |intros _; apply frame_info].
    apply frame_on_sock. intros [fd cl bl bd ib calls]. unfold sock_sendto, called. cbn.
    destruct cl; cbn; auto. }
  destruct dest as [a|l|]; cbn.
  - apply H1.
  - apply preserves_for_each; [apply net_frame_refl|apply net_frame_trans|exact H1].
  - apply net_frame_refl.
Qed.

End NetworkFrame.

Section OutNetworkFrame.
Context {Q T : Type} `{Queue Q T}.
Variable encode : T -> Result bytes.
Local Abbreviation St := (Globals * Network.t Q)%type.

Lemma frame_setting {A} (key : Settings -> A) : preserves (@net_frame Q) (Network.setting key).
Proof.
  intros [g self]. unfold Network.setting. cbn. destruct (Network.settings self); reflexivity.
Qed.

Lemma frame_queue_get : preserves (@net_frame Q) OutNetwork.queue_get.
Proof.
  intros [g [ad sk cs q c0 bo]]. unfold OutNetwork.queue_get. cbn.
  destruct q as [q|]; [|reflexivity]. destruct (q_get q) as [[x q']|]; [|reflexivity].
  unfold net_frame. cbn. repeat split; auto. exists []. rewrite app_nil_r. reflexivity.
Qed.

(** X10.  Whatever events an output channel handles, and whether the
    handler returns or raises, it never touches the selector, never closes
    or rebinds its socket, never changes its settings, address or byte
    order, never removes a client or registers one twice, and only appends
    to the log. *)
Theorem X10_output_handler_frame (masks : list Z) (st : St) :
  net_frame st (snd (for_each masks (OutNetwork.process_events encode) st)).
Proof.
  revert st. apply preserves_for_each; [apply net_frame_refl|apply net_frame_trans|].
  intros mask. unfold OutNetwork.process_events.
  apply preserves_bind; [apply net_frame_trans| |intros _].
  { destruct (truthy _); [|apply (preserves_pure _ (fun _ => Ok tt))].
    apply preserves_bind; [apply net_frame_trans|apply frame_setting|].
    intros [|]; [|apply (preserves_pure _ (fun _ => Ok tt))].
    apply preserves_bind; [apply net_frame_trans|apply frame_info|intros _].
    apply preserves_bind; [apply net_frame_trans|apply frame_receive|intros _].
    apply frame_info. }
  apply preserves_bind; [apply net_frame_trans| |].
  { destruct (truthy _); [|apply (preserves_pure _ (fun _ => Ok false))].
    apply preserves_bind; [apply net_frame_trans| |].
    - intros [g self]. unfold OutNetwork.queue_empty. cbn.
      destruct (Network.queue self); reflexivity.
    - intros e. apply (preserves_pure _ (fun _ => Ok (negb e))). }
  intros [|]; [|apply (preserves_pure _ (fun _ => Ok tt))].
  apply preserves_bind; [apply net_frame_trans|apply frame_info|intros _].
  apply preserves_bind; [apply net_frame_trans|apply frame_queue_get|intros x].
  apply preserves_bind; [apply net_frame_trans|apply frame_info|intros _].
  apply preserves_bind; [apply net_frame_trans| |intros v].
  { apply (preserves_pure _ (fun _ => encode x)). }
  apply preserves_bind; [apply net_frame_trans|apply frame_info|intros _].
  apply preserves_bind; [apply net_frame_trans| |intros cs; apply frame_send].
  apply (preserves_pure _ (fun st => Ok (Network.clients (snd st)))).
Qed.

End OutNetworkFrame.

Section InNetworkFrame.
Context {Q R : Type} `{Queue Q R}.
Variable decoder : bytes -> string -> Result R.
Local Abbreviation St := (Globals * InNetwork.t Q)%type.

#[export] Instance in_frame_refl : Reflexive (@in_frame Q).
Proof. intros st. split; [reflexivity|auto]. Qed.

#[export] Instance in_frame_trans : Transitive (@in_frame Q).
Proof.
  intros a b c (H1 & H2 & H3) (K1 & K2 & K3). split; [etransitivity; eassumption|].
  split; congruence.
Qed.

(** A change of the buffer or of the queue alone. *)
Lemma in_frame_same_channel (g g' : Globals) (self self' : InNetwork.t Q) :
  (exists l, g' = mkGlobals (sel g) (log g ++ l) (in_use g) (next_fd g) (hostname g)) ->
  Network.addr (InNetwork.base self') = Network.addr (InNetwork.base self) ->
  Network.sock (InNetwork.base self') = Network.sock (InNetwork.base self) ->
  Network.clients (InNetwork.base self') = Network.clients (InNetwork.base self) ->
  Network.settings (InNetwork.base self') = Network.settings (InNetwork.base self) ->
  Network._byte_ordering (InNetwork.base self')
    = Network._byte_ordering (InNetwork.base self) ->
  InNetwork._in_message_length self' = InNetwork._in_message_length self ->
  in_frame (g, self) (g', self').
Proof.
  intros [l ->] Ha Hs Hc Hcfg Hbo Hn. unfold in_frame, net_frame, sent_by. cbn.
  rewrite Ha, Hs, Hc, Hcfg, Hbo, Hn. repeat split; auto. eauto.
Qed.

Lemma frame_super {A} (m : Py (Globals * Network.t Q) A) :
  preserves (@net_frame Q) m ->
  (forall st, sent_by (snd (snd (m st))) = sent_by (snd st)) ->
  preserves (@in_frame Q) (InNetwork.super m).
Proof.
  intros Hm Hsent [g [b n buf]]. unfold InNetwork.super. cbn.
  specialize (Hm (g, b)). specialize (Hsent (g, b)).
  destruct (m (g, b)) as [r [g' b']]. cbn in *. split; [exact Hm|]. split; auto.
Qed.

Lemma receive_sends_nothing n (st : Globals * Network.t Q) :
  sent_by (snd (snd (Network.receive n st))) = sent_by (snd st).
Proof.
  destruct st as [g [ad sk cs q c0 bo]].
  unfold Network.receive, bind, Network.on_sock, sock_recvfrom, called, sent_by, sent. cbn.
  destruct sk as [[fd cl bl bd ib calls]|]; cbn; [|reflexivity].
  destruct cl; cbn; [rewrite flat_map_app; cbn; apply app_nil_r|].
  destruct (n <? 0); cbn; [rewrite flat_map_app; cbn; apply app_nil_r|].
  destruct ib as [|[d a] rest]; cbn; [rewrite flat_map_app; cbn; apply app_nil_r|].
  unfold Network.update, ret, modify, info.
  case_bool_decide; cbn; rewrite flat_map_app; cbn; apply app_nil_r.
Qed.

(** X11.  Whatever events an input channel handles, and whether the
    handler returns or raises, it never sends a datagram, never changes its
    expected length, never touches the selector, never closes or rebinds its
    socket, never changes its settings, address or byte order, never removes
    a client or registers one twice, and only appends to the log. *)
Theorem X11_input_handler_frame (masks : list Z) (st : St) :
  in_frame st (snd (for_each masks (InNetwork.process_events decoder) st)).
Proof.
  revert st. apply preserves_for_each; [apply in_frame_refl|apply in_frame_trans|].
  intros mask. unfold InNetwork.process_events.
  apply preserves_bind; [apply in_frame_trans| |intros _].
  { apply frame_super.
    - apply frame_on_sock. intros [fd cl bl bd ib calls]. unfold sock_setblocking, called. cbn.
      destruct cl; cbn; auto.
    - intros [g [ad sk cs q c0 bo]]. unfold Network.on_sock, sock_setblocking, called, sent_by,
        sent. cbn.
      destruct sk as [[fd cl bl bd ib calls]|]; cbn; [|reflexivity].
      destruct cl; cbn; rewrite flat_map_app; cbn; apply app_nil_r. }
  destruct (truthy _); [|apply (preserves_pure _ (fun _ => Ok tt))].
  apply preserves_bind; [apply in_frame_trans| |intros n].
  { apply (preserves_pure _ (fun st => Ok (InNetwork._in_message_length (snd st)))). }
  apply preserves_bind; [apply in_frame_trans| |intros _].
  { intros [g self]. apply in_frame_same_channel; eauto. }
  apply preserves_bind; [apply in_frame_trans| |intros msg].
  { apply frame_super; [apply frame_receive|apply receive_sends_nothing]. }
  apply preserves_bind; [apply in_frame_trans| |intros _].
  { intros [g self]. apply in_frame_same_channel; auto. exists []. destruct g; cbn.
    rewrite app_nil_r. reflexivity. }
  apply preserves_bind; [apply in_frame_trans| |intros buf].
  { apply (preserves_pure _ (fun st => Ok (InNetwork._recv_buffer (snd st)))). }
  apply preserves_bind; [apply in_frame_trans| |intros n'].
  { apply (preserves_pure _ (fun st => Ok (InNetwork._in_message_length (snd st)))). }
  destruct (_ =? _); [|apply (preserves_pure _ (fun _ => Ok tt))].
  apply preserves_bind; [apply in_frame_trans| |intros _].
  { intros [g self]. apply in_frame_same_channel; eauto. }
  apply preserves_bind; [apply in_frame_trans| |intros order].
  { apply (preserves_pure _
             (fun st => Ok (Network._byte_ordering (InNetwork.base (snd st))))). }
  apply preserves_bind; [apply in_frame_trans| |intros r].
  { apply (preserves_pure _ (fun _ => decoder buf order)). }
  apply preserves_bind; [apply in_frame_trans| |intros _].
  { intros [g [[ad sk cs q c0 bo] n0 b0]]. unfold InNetwork.queue_put. cbn.
    destruct q as [q|]; [|reflexivity].
    apply in_frame_same_channel; auto. exists []. destruct g; cbn.
    rewrite app_nil_r. reflexivity. }
  apply preserves_bind; [apply in_frame_trans| |intros _].
  { intros [g self]. apply in_frame_same_channel; eauto. }
  intros [g self]. apply in_frame_same_channel; auto. exists []. destruct g; cbn.
  rewrite app_nil_r. reflexivity.
Qed.

End InNetworkFrame.

(** ** Sequences of events on the input channel *)

Section InNetworkRuns.
Context {Q R : Type} `{Queue Q R}.
Variable decoder : bytes -> string -> Result R.
Local Abbreviation St := (Globals * InNetwork.t Q)%type.

(** A READ event that does not complete the frame. *)
Lemma in_event_no_record (g : Globals) (self : InNetwork.t Q) (mask : Z) s d a rest :
  let n := InNetwork._in_message_length self in
  let b := InNetwork.base self in
  let buf := InNetwork._recv_buffer self ++ firstn (Z.to_nat n) d in
  mask_includes mask EVENT_READ = true ->
  Network.sock b = Some s -> sock_closed s = false -> sock_inbox s = (d, a) :: rest ->
  0 <= n -> Z.of_nat (length buf) <> n ->
  exists g',
    InNetwork.process_events decoder mask (g, self) =
      (Ok tt,
       (g', InNetwork.mk
              (Network.mk (Network.addr b) (Some (after_read n s rest))
                          (registered a (Network.clients b)) (Network.queue b)
                          (Network.settings b) (Network._byte_ordering b))
              n buf)).
Proof.
  intros n b buf Hm Hs Hc Hi Hn Hne. subst n b buf.
  destruct self as [[ad sk cs q cfg bo] len rb]. destruct s as [fd cl bl bd ib calls].
  simpl in *. subst.
  unfold InNetwork.process_events.
  rewrite py_and_truthy by reflexivity. rewrite (includes_truthy _ _ Hm).
  unfold bind, InNetwork.super, Network.on_sock, sock_setblocking, called. cbn.
  match goal with
  | |- context [Network.receive ?m (?g0, ?self0)] =>
      edestruct (receive_ok m g0 self0) as (g' & Hr & _);
      [| | exact Hn | | rewrite Hr]; [reflexivity..|]
  end.
  cbn. destruct (Z.eqb_spec (Z.of_nat (length (rb ++ take (Z.to_nat len) d))) len); [lia|].
  cbn. eexists. reflexivity.
Qed.

(** A READ event that completes the frame. *)
Lemma in_event_record (g : Globals) (self : InNetwork.t Q) (mask : Z) s d a rest q r :
  let n := InNetwork._in_message_length self in
  let b := InNetwork.base self in
  let buf := InNetwork._recv_buffer self ++ firstn (Z.to_nat n) d in
  mask_includes mask EVENT_READ = true ->
  Network.sock b = Some s -> sock_closed s = false -> sock_inbox s = (d, a) :: rest ->
  Network.queue b = Some q ->
  Z.of_nat (length buf) = n ->
  decoder buf (Network._byte_ordering b) = Ok r ->
  exists g',
    InNetwork.process_events decoder mask (g, self) =
      (Ok tt,
       (g', InNetwork.mk
              (Network.mk (Network.addr b) (Some (after_read n s rest))
                          (registered a (Network.clients b)) (Some (q_put r q))
                          (Network.settings b) (Network._byte_ordering b))
              n [])).
Proof.
  intros n b buf Hm Hs Hc Hi Hq Hlen Hd. subst n b buf.
  destruct self as [[ad sk cs q0 cfg bo] len rb]. destruct s as [fd cl bl bd ib calls].
  simpl in *. subst.
  unfold InNetwork.process_events.
  rewrite py_and_truthy by reflexivity. rewrite (includes_truthy _ _ Hm).
  unfold bind, InNetwork.super, Network.on_sock, sock_setblocking, called. cbn.
  assert (Hn : 0 <= len) by lia.
  match goal with
  | |- context [Network.receive ?m (?g0, ?self0)] =>
      edestruct (receive_ok m g0 self0) as (g' & Hr & _);
      [| | exact Hn | | rewrite Hr]; [reflexivity..|]
  end.
  cbn. rewrite Hlen, Z.eqb_refl. cbn. rewrite Hd. cbn.
  unfold InNetwork.queue_put. cbn. eexists. reflexivity.
Qed.

(** X12.  Reassembly.  Let the datagrams [ds] wait on the socket, each
    with at least one byte, such that the buffer followed by their payloads
    has exactly the expected length and decodes to a record.  Then as many
    READ events as there are datagrams all return normally and leave exactly
    that one record on the queue, an empty buffer, the senders registered in
    order of arrival and the later datagrams still waiting. *)
Theorem X12_fragments_are_reassembled (ds : list Datagram) :
  forall (st : St) (mask : Z) s rest q r,
  let self := snd st in
  let n := InNetwork._in_message_length self in
  let frame := InNetwork._recv_buffer self ++ concat (map fst ds) in
  mask_includes mask EVENT_READ = true ->
  Network.sock (InNetwork.base self) = Some s ->
  sock_closed s = false ->
  sock_inbox s = ds ++ rest ->
  Network.queue (InNetwork.base self) = Some q ->
  ds <> [] ->
  Forall (fun d => fst d <> []) ds ->
  Z.of_nat (length frame) = n ->
  decoder frame (Network._byte_ordering (InNetwork.base self)) = Ok r ->
  let out := times (length ds) (InNetwork.process_events decoder mask) st in
  fst out = Ok tt
  /\ Network.queue (InNetwork.base (snd (snd out))) = Some (q_put r q)
  /\ InNetwork._recv_buffer (snd (snd out)) = []
  /\ Network.clients (InNetwork.base (snd (snd out)))
     = fold_left (fun cs a => registered a cs) (map snd ds)
                 (Network.clients (InNetwork.base self))
  /\ exists s', Network.sock (InNetwork.base (snd (snd out))) = Some s'
                /\ sock_inbox s' = rest.
Proof.
  induction ds as [|[d a] ds IH]; intros st mask s rest q r self n frame
    Hm Hs Hc Hi Hq Hne Hall Hlen Hd out; [congruence|].
  subst out frame n self. destruct st as [g self]. cbn [fst snd] in *.
  inversion Hall as [|? ? Hd1 Hall']; subst. cbn in Hd1.
  cbn [map concat fst] in Hlen, Hd. rewrite !length_app in Hlen.
  assert (Htake : firstn (Z.to_nat (InNetwork._in_message_length self)) d = d).
  { apply take_ge. lia. }
  cbn [length times]. unfold bind.
  destruct ds as [|d2 ds].
  - cbn in Hlen, Hd. rewrite app_nil_r in Hd.
    edestruct (in_event_record g self mask s d a rest q r) as (g' & Heq);
      [exact Hm|exact Hs|exact Hc|exact Hi|exact Hq| | |rewrite Heq].
    + rewrite Htake, length_app. lia.
    + rewrite Htake. exact Hd.
    + cbn. repeat split; auto. eexists. split; reflexivity.
  - assert (Hpos : (0 < length (concat (map fst (d2 :: ds))))%nat).
    { inversion Hall' as [|? ? Hd2 _]; subst. destruct d2 as [[|x p] a2]; cbn in *;
        [congruence|lia]. }
    edestruct (in_event_no_record g self mask s d a (((d2 :: ds)) ++ rest)) as (g' & Heq);
      [exact Hm|exact Hs|exact Hc|exact Hi| | |rewrite Heq].
    + lia.
    + rewrite Htake, length_app. lia.
    + cbn [fst snd]. rewrite Htake.
      edestruct (IH (g', InNetwork.mk
                     (Network.mk (Network.addr (InNetwork.base self))
                        (Some (after_read (InNetwork._in_message_length self) s
                                          ((d2 :: ds) ++ rest)))
                        (registered a (Network.clients (InNetwork.base self)))
                        (Network.queue (InNetwork.base self))
                        (Network.settings (InNetwork.base self))
                        (Network._byte_ordering (InNetwork.base self)))
                     (InNetwork._in_message_length self)
                     (InNetwork._recv_buffer self ++ d))
                  mask (after_read (InNetwork._in_message_length self) s ((d2 :: ds) ++ rest))
                  rest q r)
        as (H1 & H2 & H3 & H4 & H5); cbn [fst snd InNetwork.base InNetwork._recv_buffer
          InNetwork._in_message_length Network.sock Network.queue Network._byte_ordering
          Network.clients]; try reflexivity; try assumption; try congruence.
      * rewrite <- app_assoc, !length_app. cbn [map concat] in *. rewrite ?length_app in *. lia.
      * rewrite <- app_assoc. exact Hd.
      * split; [exact H1|]. split; [exact H2|]. split; [exact H3|]. split; [exact H4|exact H5].
Qed.

#[export] Instance overshoot_stays_refl : Reflexive (@overshoot_stays Q).
Proof. intros st _. auto. Qed.

#[export] Instance overshoot_stays_trans : Transitive (@overshoot_stays Q).
Proof.
  intros a b c Hab Hbc Ha. destruct (Hab Ha) as (H1 & H2 & H3).
  destruct Hbc as (K1 & K2 & K3); [lia|]. split; [congruence|]. split; [lia|congruence].
Qed.

(** X13.  An input channel that has overshot never recovers: whatever
    events follow, and whether their handlers return or raise, the expected
    length stays the same, the buffer never gets shorter, so it stays longer
    than the expected length, and no record is ever put on the queue. *)
Theorem X13_overshoot_is_permanent (masks : list Z) (st : St) :
  InNetwork._in_message_length (snd st)
    < Z.of_nat (length (InNetwork._recv_buffer (snd st))) ->
  let st' := snd (for_each masks (InNetwork.process_events decoder) st) in
  InNetwork._in_message_length (snd st')
    < Z.of_nat (length (InNetwork._recv_buffer (snd st')))
  /\ Network.queue (InNetwork.base (snd st')) = Network.queue (InNetwork.base (snd st)).
Proof.
  intros Hover st'.
  assert (Hstays : overshoot_stays st st').
  { subst st'. revert st Hover. intros st _. revert st.
    apply preserves_for_each;
      [apply overshoot_stays_refl|apply overshoot_stays_trans|].
    intros mask [g [[ad sk cs q cfg bo] len rb]] Hlt. cbn in Hlt |- *.
    unfold InNetwork.process_events.
    rewrite py_and_truthy by reflexivity.
    unfold bind at 1. unfold InNetwork.super at 1. unfold Network.on_sock at 1. cbn.
    destruct sk as [[fd cl bl bd ib calls]|]; cbn; [|auto].
    destruct cl; cbn; [auto|].
    destruct (truthy mask); cbn; [|auto].
    destruct (Z.ltb_spec len 0) as [Hneg|Hn].
    { unfold bind, InNetwork.super. cbn.
      unfold Network.receive, bind, Network.on_sock, sock_recvfrom, called; cbn.
      destruct (Z.ltb_spec len 0); [|lia]. cbn. auto. }
    destruct ib as [|[d a] rest].
    { unfold bind, InNetwork.super. cbn.
      unfold Network.receive, bind, Network.on_sock, sock_recvfrom, called; cbn.
      destruct (Z.ltb_spec len 0); [lia|]. cbn. auto. }
    unfold bind, InNetwork.super, Network.on_sock, sock_setblocking, called; cbn.
    match goal with
    | |- context [Network.receive ?m (?g0, ?self0)] =>
        edestruct (receive_ok m g0 self0) as (g' & Hr & _);
        [| | exact Hn | | rewrite Hr]; [reflexivity..|]
    end.
    cbn.
    destruct (Z.eqb_spec (Z.of_nat (length (rb ++ take (Z.to_nat len) d))) len) as [E|E];
      [rewrite length_app in E; lia|].
    cbn. rewrite length_app. split; [reflexivity|]. split; [lia|reflexivity]. }
  destruct (Hstays Hover) as (H1 & H2 & H3). split; [lia|exact H3].
Qed.


End InNetworkRuns.

(** ** Events on the output channel *)

Section OutNetworkEvents.
Context {Q T : Type} `{Queue Q T}.
Variable encode : T -> Result bytes.
Local Abbreviation St := (Globals * Network.t Q)%type.


(** X16.  Nothing to do.  With the mask 0 the output handler does nothing
    at all, in any state, even on a channel that was never initialised.  In
    push mode with an empty queue it does nothing either, whatever the mask
    and whatever waits on the socket. *)
Theorem X16_output_handler_idle (st : St) (mask : Z) :
  mask = 0
  \/ (exists cfg q, Network.settings (snd st) = Some cfg /\ send_on_demand cfg = false
                    /\ Network.queue (snd st) = Some q /\ q_empty q = true) ->
  OutNetwork.process_events encode mask st = (Ok tt, st).
Proof.
  destruct st as [g [ad sk cs q0 c0 bo]]. cbn.
  unfold OutNetwork.process_events. rewrite !py_and_truthy by reflexivity.
  intros [->|(cfg & q & -> & Hsod & -> & He)].
  - reflexivity.
  - unfold bind, Network.setting, OutNetwork.queue_empty.
    destruct (truthy mask); cbn; rewrite ?Hsod; cbn; rewrite ?He; reflexivity.
Qed.

(** X17.  On-demand mode with an empty queue.  A request that arrives
    while no snapshot is queued is read and its sender is registered, but no
    reply is sent, and the handler returns normally. *)
Theorem X17_request_without_snapshot (st : St) (mask : Z) cfg s d c rest q :
  mask_includes mask EVENT_READ = true ->
  Network.settings (snd st) = Some cfg ->
  send_on_demand cfg = true ->
  Network.sock (snd st) = Some s ->
  sock_closed s = false ->
  sock_inbox s = (d, c) :: rest ->
  Network.queue (snd st) = Some q ->
  q_empty q = true ->
  let out := OutNetwork.process_events encode mask st in
  fst out = Ok tt
  /\ sent_by (snd (snd out)) = sent s
  /\ Network.clients (snd (snd out)) = registered c (Network.clients (snd st))
  /\ option_map sock_inbox (Network.sock (snd (snd out))) = Some rest
  /\ Network.queue (snd (snd out)) = Some q.
Proof.
  intros Hr Hcfg Hsod Hs Hc Hi Hq He out. subst out.
  destruct st as [g [ad sk cs q0 c0 bo]]. destruct s as [fd cl bl bd ib calls].
  cbn in *. subst.
  unfold OutNetwork.process_events.
  rewrite !py_and_truthy by reflexivity. rewrite (includes_truthy _ _ Hr).
  unfold bind, Network.setting, info, modify. cbn -[Network.receive].
  rewrite Hsod.
  match goal with
  | |- context [Network.receive ?m (?g0, ?self0)] =>
      edestruct (receive_ok m g0 self0) as (g' & Hrecv & Hsel & Hlog);
      [| | | | rewrite Hrecv];
      [reflexivity | reflexivity | unfold Network.default_msg_length; lia | reflexivity |]
  end.
  unfold OutNetwork.queue_empty. cbn. rewrite He. cbn.
  unfold sent_by, sent. cbn. rewrite flat_map_app. cbn. rewrite app_nil_r. auto.
Qed.

(** X18.  On-demand mode with nothing to read.  On any event with a
    non-zero mask, a WRITE-only one included, the handler first tries to
    read a request; when none waits on the non-blocking socket it raises
    [BlockingIOError], and the snapshots in the queue are neither taken nor
    sent. *)
Theorem X18_demand_without_request_raises (st : St) (mask : Z) cfg s :
  mask <> 0 ->
  Network.settings (snd st) = Some cfg ->
  send_on_demand cfg = true ->
  Network.sock (snd st) = Some s ->
  sock_closed s = false ->
  sock_blocking s = false ->
  sock_inbox s = [] ->
  let out := OutNetwork.process_events encode mask st in
  fst out = Raise BlockingIOError
  /\ sent_by (snd (snd out)) = sent s
  /\ Network.queue (snd (snd out)) = Network.queue (snd st)
  /\ Network.clients (snd (snd out)) = Network.clients (snd st).
Proof.
  intros Hmask Hcfg Hsod Hs Hc Hb Hi out. subst out.
  destruct st as [g [ad sk cs q0 c0 bo]]. destruct s as [fd cl bl bd ib calls].
  cbn in *. subst.
  unfold OutNetwork.process_events.
  rewrite !py_and_truthy by reflexivity.
  assert (Ht : truthy mask = true).
  { unfold truthy. destruct (Z.eqb_spec mask 0); [contradiction|reflexivity]. }
  rewrite Ht.
  unfold bind, Network.setting, info, modify. cbn. rewrite Hsod.
  unfold Network.receive, bind, Network.on_sock, sock_recvfrom, called. cbn.
  unfold sent_by, sent. cbn. rewrite flat_map_app. cbn. rewrite app_nil_r. auto.
Qed.

End OutNetworkEvents.

(** ** [NetworkLoader.get_networks] *)

Section Loader.
Context {Qout Qin : Type}.






End Loader.

(** ** Single events on the input channel *)

Section InNetworkEvents.
Context {Q R : Type} `{Queue Q R}.
Variable decoder : bytes -> string -> Result R.
Local Abbreviation St := (Globals * InNetwork.t Q)%type.

(** X21.  A datagram at least as long as the expected length, read into
    an empty buffer, is cut to the expected length by the socket: the first
    [n] bytes are decoded and put on the queue as one record, and the bytes
    after them are lost, neither in the buffer nor left on the socket. *)
Theorem X21_long_datagram_is_truncated (st : St) (mask : Z) s d a rest q r :
  let self := snd st in
  let n := InNetwork._in_message_length self in
  mask_includes mask EVENT_READ = true ->
  Network.sock (InNetwork.base self) = Some s ->
  sock_closed s = false ->
  sock_inbox s = (d, a) :: rest ->
  Network.queue (InNetwork.base self) = Some q ->
  InNetwork._recv_buffer self = [] ->
  0 <= n <= Z.of_nat (length d) ->
  decoder (firstn (Z.to_nat n) d) (Network._byte_ordering (InNetwork.base self)) = Ok r ->
  let out := InNetwork.process_events decoder mask st in
  fst out = Ok tt
  /\ Network.queue (InNetwork.base (snd (snd out))) = Some (q_put r q)
  /\ InNetwork._recv_buffer (snd (snd out)) = []
  /\ option_map sock_inbox (Network.sock (InNetwork.base (snd (snd out)))) = Some rest.
Proof.
  intros self n Hm Hs Hc Hi Hq Hb Hn Hd out. subst out n self.
  destruct st as [g self]. cbn [fst snd] in *.
  edestruct (in_event_record decoder g self mask s d a rest q r) as (g' & Heq);
    [exact Hm|exact Hs|exact Hc|exact Hi|exact Hq| | |rewrite Heq].
  - rewrite Hb. cbn [app]. rewrite length_take. lia.
  - rewrite Hb. exact Hd.
  - cbn. auto.
Qed.

(** X22.  When a read completes the frame but the decoder raises, the
    handler raises the same exception after the datagram was consumed; no
    record is put on the queue and the buffer is not emptied: it keeps the
    complete frame. *)
Theorem X22_decoder_failure_keeps_the_frame (st : St) (mask : Z) s d a rest e :
  let self := snd st in
  let n := InNetwork._in_message_length self in
  let buf := InNetwork._recv_buffer self ++ firstn (Z.to_nat n) d in
  mask_includes mask EVENT_READ = true ->
  Network.sock (InNetwork.base self) = Some s ->
  sock_closed s = false ->
  sock_inbox s = (d, a) :: rest ->
  Z.of_nat (length buf) = n ->
  decoder buf (Network._byte_ordering (InNetwork.base self)) = Raise e ->
  let out := InNetwork.process_events decoder mask st in
  fst out = Raise e
  /\ InNetwork._recv_buffer (snd (snd out)) = buf
  /\ Network.queue (InNetwork.base (snd (snd out))) = Network.queue (InNetwork.base self)
  /\ option_map sock_inbox (Network.sock (InNetwork.base (snd (snd out)))) = Some rest.
Proof.
  intros self n buf Hm Hs Hc Hi Hlen Hd out. subst out buf n self.
  destruct st as [g [[ad sk cs q0 cfg bo] len rb]]. destruct s as [fd cl bl bd ib calls].
  simpl in *. subst.
  unfold InNetwork.process_events.
  rewrite py_and_truthy by reflexivity. rewrite (includes_truthy _ _ Hm).
  unfold bind, InNetwork.super, Network.on_sock, sock_setblocking, called. cbn.
  assert (Hn : 0 <= len) by lia.
  match goal with
  | |- context [Network.receive ?m (?g0, ?self0)] =>
      edestruct (receive_ok m g0 self0) as (g' & Hr & _);
      [| | exact Hn | | rewrite Hr]; [reflexivity..|]
  end.
  cbn. rewrite Hlen, Z.eqb_refl. cbn. rewrite Hd. cbn. auto.
Qed.

End InNetworkEvents.


(** * The examples of the specification, run on the code *)

Import Demo.

(** Runs [k] on the socket that the option [e] evaluates to. *)
Ltac with_socket e k :=
  let v := eval vm_compute in e in
  lazymatch v with
  | Some ?s => k s
  end.

(** Closes a goal that holds by evaluation. *)
Ltac by_evaluation := vm_compute; first [reflexivity | discriminate | lia].

(** ** C1: expected length 100, 60 bytes and then 80 bytes *)

(** After the second read the buffer holds 140 bytes; it was not emptied,
    and every record logged is an INFO record of an ordinary read. *)
Lemma C1_counterexample :
  let out := InNetwork.process_events raw_decoder EVENT_READ in100_has60_pending80 in
  fst out = Ok tt
  /\ length (InNetwork._recv_buffer (snd (snd out))) = 140%nat
  /\ InNetwork._recv_buffer (snd (snd out)) <> []
  /\ Forall (fun r => levelno r = INFO) (log (fst (snd out))).
Proof.
  vm_compute. split; [reflexivity|]. split; [reflexivity|]. split; [discriminate|].
  repeat constructor.
Qed.

(** The same run, through [C1_overshoot_is_kept]. *)
Lemma C1_witness :
  let out := InNetwork.process_events raw_decoder EVENT_READ in100_has60_pending80 in
  100 < Z.of_nat (length (zeros 60 ++ zeros 80))
  /\ fst out = Ok tt
  /\ InNetwork._recv_buffer (snd (snd out)) = zeros 60 ++ zeros 80
  /\ Network.queue (InNetwork.base (snd (snd out))) = Some [].
Proof.
  split; [by_evaluation|].
  with_socket (Network.sock (InNetwork.base (snd in100_has60_pending80))) ltac:(fun s =>
    destruct (C1_overshoot_is_kept raw_decoder in100_has60_pending80 EVENT_READ
                s (zeros 80) peer_a [])
      as (H1 & H2 & H3 & _); [by_evaluation..|]).
  split; [exact H1|]. split; [exact H2|exact H3].
Defined.

(** ** C2: the size asked of the socket *)

(** With 60 of 100 bytes in the buffer the channel asks for 100 bytes, not
    for the 40 that are missing, and ends with more than 100 bytes. *)
Lemma C2_counterexample :
  let st := in100_has60_pending80 in
  let out := InNetwork.process_events raw_decoder EVENT_READ st in
  length (InNetwork._recv_buffer (snd st)) = 60%nat
  /\ requests_of (InNetwork.base (snd st)) = [100]
  /\ requests_of (InNetwork.base (snd (snd out))) = [100; 100]
  /\ ~ (100 <= 100 - 60)
  /\ ~ (Z.of_nat (length (InNetwork._recv_buffer (snd (snd out)))) <= 100).
Proof.
  split; [by_evaluation|]. split; [by_evaluation|]. split; [by_evaluation|].
  split; [lia|]. vm_compute. intros Hle. apply Hle. reflexivity.
Qed.

(** The same event, through [C2_requests_the_expected_length]. *)
Lemma C2_witness :
  let st := in100_has60_pending80 in
  let out := InNetwork.process_events raw_decoder EVENT_READ st in
  (exists s', Network.sock (InNetwork.base (snd (snd out))) = Some s'
              /\ requested s' = [100; 100])
  /\ (length (InNetwork._recv_buffer (snd (snd out))) <= 60 + 100)%nat.
Proof.
  with_socket (Network.sock (InNetwork.base (snd in100_has60_pending80))) ltac:(fun s =>
    destruct (C2_requests_the_expected_length raw_decoder in100_has60_pending80
                EVENT_READ s)
      as ((s' & Hs' & Hreq) & Hlen & _); [by_evaluation..|]).
  split; [exists s'; split; [exact Hs'|exact Hreq]|exact Hlen].
Defined.

(** ** C3: who receives the reply *)




(** ** C4: the readiness test *)

(** C4 on the code.  The handlers test [mask and selectors.EVENT_READ] and
    [mask and selectors.EVENT_WRITE], which hold for every mask other than
    zero.  With the mask [EVENT_WRITE] alone, which does not include READ,
    the input channel calls [recvfrom] and takes the waiting 60 bytes into
    its buffer.  With the mask [EVENT_READ] alone, which does not include
    WRITE, the output channel takes the snapshot from the queue and sends
    it. *)
Theorem C4_any_nonzero_mask_runs_both_branches :
  mask_includes EVENT_WRITE EVENT_READ = false
  /\ (let st := in100_pending60 in
      let out := InNetwork.process_events raw_decoder EVENT_WRITE st in
      fst out = Ok tt
      /\ requests_of (InNetwork.base (snd st)) = []
      /\ requests_of (InNetwork.base (snd (snd out))) = [100]
      /\ InNetwork._recv_buffer (snd (snd out)) = zeros 60)
  /\ mask_includes EVENT_READ EVENT_WRITE = false
  /\ (let st := net_arrival ([], peer_a) out_channel in
      let out := OutNetwork.process_events raw_encode EVENT_READ st in
      fst out = Ok tt
      /\ sent_by (snd st) = []
      /\ sent_by (snd (snd out)) = [(zeros 8, peer_a)]).
Proof. repeat split; by_evaluation. Qed.

(** ** C5: push mode without destinations *)

(** C5 on the code.  [initialise] of an output channel in push mode
    ([send_on_demand] false) with no destination address returns normally:
    the channel is bound and registered with an empty client registry, and
    the only trace of the missing destinations is one WARNING record. *)
Theorem C5_empty_push_destinations_only_warn :
  let out := OutNetwork.initialise "rw" push_settings_empty
               (g0, Network.__init__ (Q := list bytes) None None) in
  send_on_demand push_settings_empty = false
  /\ destination_address push_settings_empty = []
  /\ fst out = Ok tt
  /\ is_bound (snd out) = true
  /\ Network.clients (snd (snd out)) = []
  /\ filter (fun r => levelno r = WARNING) (log (fst (snd out)))
     = [mkLog WARNING "No destination host address provided" []].
Proof. repeat split; by_evaluation. Qed.

(** ** C6: closing twice *)

(** On an initialised channel the second of two [close()] calls raises. *)
Lemma C6_counterexample :
  is_bound net_channel = true
  /\ fst ((Network.close ;;; Network.close) net_channel) = Raise ValueError.
Proof. split; by_evaluation. Qed.

(** The same channel, through [C6_second_close_raises]. *)
Lemma C6_witness :
  exists st2,
    Network.close net_channel = (Ok tt, st2)
    /\ Network.close st2 = (Raise ValueError, st2).
Proof.
  destruct (C6_second_close_raises net_channel) as (st2 & s2 & H1 & _ & _ & _ & H2);
    [by_evaluation|].
  exists st2. split; assumption.
Defined.

(** ** C7: expected length 1024, datagrams of 300, 300 and 424 bytes *)

(** After the first two reads the buffer holds 600 bytes and the queue is
    empty; the third read completes the frame: one record, empty buffer. *)
Lemma C7_witness :
  let out := InNetwork.process_events raw_decoder EVENT_READ in1024_has600 in
  length (InNetwork._recv_buffer (snd in1024_has600)) = 600%nat
  /\ Network.queue (InNetwork.base (snd in1024_has600)) = Some []
  /\ fst out = Ok tt
  /\ Network.queue (InNetwork.base (snd (snd out)))
     = Some [zeros 300 ++ zeros 300 ++ ones 424]
  /\ InNetwork._recv_buffer (snd (snd out)) = [].
Proof.
  split; [by_evaluation|]. split; [by_evaluation|].
  with_socket (Network.sock (InNetwork.base (snd in1024_has600))) ltac:(fun s =>
    destruct (proj2 (C7_exact_length_yields_one_record raw_decoder in1024_has600 EVENT_READ)
                s (ones 424) peer_a [] [] (zeros 300 ++ zeros 300 ++ ones 424))
      as (Hok & Hq & Hb); [by_evaluation..|]).
  split; [exact Hok|]. split; [exact Hq|exact Hb].
Defined.

(** ** C8: three datagrams of one peer *)

(** A new channel receives three datagrams of [peer_a]: one entry. *)
Lemma C8_witness :
  let st1 := snd (Network.receive 1024 net_three_from_a) in
  let st3 := snd (Network.receive 1024 (snd (Network.receive 1024 st1))) in
  Network.clients (snd net_three_from_a) = []
  /\ length (filter (fun x => x = peer_a) (Network.clients (snd st3))) = 1%nat.
Proof.
  split; [by_evaluation|].
  with_socket (Network.sock (snd net_three_from_a)) ltac:(fun s =>
    apply (proj2 (@C8_registry_has_no_duplicates (list bytes)) net_three_from_a
             (snd (Network.receive 1024 net_three_from_a)) _ 1024 (zeros 8) s
             (zeros 8) peer_a [(ones 4, peer_a); (zeros 4, peer_a)])).
  - vm_compute. constructor.
  - by_evaluation.
  - by_evaluation.
  - by_evaluation.
  - eapply rtc_l; [apply step_receive|]. eapply rtc_l; [apply step_receive|]. apply rtc_refl.
Defined.

(** ** C9: what [receive] returns *)

(** The same payload sent by two peers makes [receive] return the same
    value: no function of the returned value gives the sender. *)
Lemma C9_counterexample :
  ~ exists sender_of : Result bytes -> Addr,
      sender_of (fst (Network.receive 1024 (net_arrival (zeros 4, peer_a) net_channel)))
        = peer_a
      /\ sender_of (fst (Network.receive 1024 (net_arrival (zeros 4, peer_c) net_channel)))
        = peer_c.
Proof.
  intros [f [Ha Hc]]. vm_compute in Ha, Hc. rewrite Ha in Hc. discriminate.
Qed.

(** A successful call, through [C9_receive_returns_bytes_only]. *)
Lemma C9_witness :
  let out := Network.receive 1024 (net_arrival (zeros 4, peer_a) net_channel) in
  fst out = Ok (zeros 4)
  /\ exists a, a = peer_a /\ a ∈ Network.clients (snd (snd out)).
Proof.
  split; [by_evaluation|].
  destruct (C9_receive_returns_bytes_only 1024
              (net_arrival (zeros 4, peer_a) net_channel)
              (snd (Network.receive 1024 (net_arrival (zeros 4, peer_a) net_channel)))
              (zeros 4))
    as (s & d & a & rest & Hs & Hi & _ & _ & Ha); [by_evaluation|].
  exists a. split; [|exact Ha].
  vm_compute in Hs. injection Hs as <-. vm_compute in Hi. injection Hi as _ <- _.
  reflexivity.
Defined.

(** ** C10: four addresses, three ports, one pair twice *)

(** The fourth address has no port and is dropped; the third pair repeats
    the first and is not added again. *)
Lemma C10_witness :
  let out := OutNetwork.initialise "rw" uneven_settings
               (g0, Network.__init__ (Q := list bytes) None None) in
  length (destination_address uneven_settings) = 4%nat
  /\ length (destination_ports uneven_settings) = 3%nat
  /\ fst out = Ok tt
  /\ Network.clients (snd (snd out)) = [("10.0.0.1", 5000); ("10.0.0.2", 5001)].
Proof.
  split; [reflexivity|]. split; [reflexivity|].
  destruct (C10_clients_are_the_zipped_destinations "rw" uneven_settings
              (g0, Network.__init__ (Q := list bytes) None None) 3)
    as (Hok & Hcs & _); [reflexivity | reflexivity | | reflexivity |].
  { vm_compute. intros Hin. inversion Hin. }
  split; [exact Hok|]. rewrite Hcs. vm_compute. reflexivity.
Defined.

(** * The further properties, on concrete channels *)

(** The empty list of addresses in use holds no address. *)
Ltac nothing_in_use := vm_compute; let Hin := fresh in intros Hin; inversion Hin.

(** ** The life cycle of a channel *)




(** After the refused mode 'x', [close()] raises and the address stays in
    use. *)
Lemma X6_witness :
  let st1 := snd (Network.initialise "x" in_settings
                    (g0, Network.__init__ (Q := list bytes) None None)) in
  Network.close st1 = (Raise KeyError, st1)
  /\ ("127.0.0.1", 65001) ∈ in_use (fst st1).
Proof.
  destruct (X6_failed_initialise_cannot_be_closed "x" in_settings
              (g0, Network.__init__ (Q := list bytes) None None))
    as (_ & H2 & H3 & _); [reflexivity | nothing_in_use | reflexivity |].
  split; [exact H2|exact H3].
Defined.

(** A channel registered for reading and writing is set to writing only. *)
Lemma X7_witness :
  let out := Network._set_selector_events_mask "w" net_channel in
  fst out = Ok tt
  /\ snd (snd out) = snd net_channel
  /\ is_bound (snd out) = true.
Proof.
  assert (Hb : is_bound net_channel = true) by by_evaluation.
  pose proof (X7_set_selector_events_mask "w" net_channel Hb) as H.
  cbv zeta in H. change (get_events "w") with (@Ok Z EVENT_WRITE) in H.
  cbv beta iota in H.
  destruct H as (H1 & H2 & H3 & _).
  split; [exact H1|]. split; [exact H2|exact H3].
Defined.

(** ** [send] and the output handler *)



(** The mask 0 on a channel with a request waiting and a snapshot queued. *)
Lemma X16_witness :
  OutNetwork.process_events raw_encode 0 out_asked_by_c = (Ok tt, out_asked_by_c).
Proof. apply X16_output_handler_idle. left. reflexivity. Defined.

(** [peer_a] asks while the queue is empty: registered, not answered. *)
Lemma X17_witness :
  let out := OutNetwork.process_events raw_encode EVENT_READ out_idle_asked_by_a in
  fst out = Ok tt
  /\ sent_by (snd (snd out)) = []
  /\ Network.clients (snd (snd out)) = [peer_a].
Proof.
  with_socket (Network.sock (snd out_idle_asked_by_a)) ltac:(fun s =>
    destruct (X17_request_without_snapshot raw_encode out_idle_asked_by_a EVENT_READ
                demand_settings s [] peer_a [] [])
      as (H1 & H2 & H3 & _); [by_evaluation..|]).
  split; [exact H1|]. split; [rewrite H2|rewrite H3]; by_evaluation.
Defined.

(** A WRITE event in on-demand mode with two snapshots queued and no
    request waiting. *)
Lemma X18_witness :
  let out := OutNetwork.process_events raw_encode EVENT_WRITE out_channel in
  fst out = Raise BlockingIOError
  /\ Network.queue (snd (snd out)) = Some [zeros 8; ones 8].
Proof.
  with_socket (Network.sock (snd out_channel)) ltac:(fun s =>
    destruct (X18_demand_without_request_raises raw_encode out_channel EVENT_WRITE
                demand_settings s)
      as (H1 & _ & H3 & _); [by_evaluation..|]).
  split; [exact H1|]. rewrite H3. by_evaluation.
Defined.

(** ** The input handler *)

(** Datagrams of 300, 300 and 424 bytes, expected length 1024: three
    events, one record. *)
Lemma X12_witness :
  let out := times 3 (InNetwork.process_events raw_decoder EVENT_READ) in1024_pending3 in
  fst out = Ok tt
  /\ Network.queue (InNetwork.base (snd (snd out)))
     = Some [zeros 300 ++ zeros 300 ++ ones 424]
  /\ InNetwork._recv_buffer (snd (snd out)) = [].
Proof.
  with_socket (Network.sock (InNetwork.base (snd in1024_pending3))) ltac:(fun s =>
    destruct (X12_fragments_are_reassembled raw_decoder
                [(zeros 300, peer_a); (zeros 300, peer_a); (ones 424, peer_a)]
                in1024_pending3 EVENT_READ s [] [] (zeros 300 ++ zeros 300 ++ ones 424))
      as (H1 & H2 & H3 & _);
      [by_evaluation | by_evaluation | by_evaluation | by_evaluation | by_evaluation
      | by_evaluation | repeat constructor; discriminate | by_evaluation | by_evaluation |]).
  split; [exact H1|]. split; [exact H2|exact H3].
Defined.

(** Expected length 100 and 140 bytes in the buffer: two more events
    change neither the queue nor the overshoot. *)
Lemma X13_witness :
  let st' := snd (for_each [EVENT_READ; EVENT_WRITE]
                    (InNetwork.process_events raw_decoder) in100_has140) in
  InNetwork._in_message_length (snd st')
    < Z.of_nat (length (InNetwork._recv_buffer (snd st')))
  /\ Network.queue (InNetwork.base (snd st')) = Some [].
Proof.
  destruct (X13_overshoot_is_permanent raw_decoder [EVENT_READ; EVENT_WRITE] in100_has140)
    as (H1 & H2); [by_evaluation|].
  split; [exact H1|]. rewrite H2. by_evaluation.
Defined.


(** ** The loader *)



(** Expected length 4 and a datagram of 8 bytes: a record of 4 bytes. *)
Lemma X21_witness :
  let out := InNetwork.process_events raw_decoder EVENT_READ in4_pending8 in
  fst out = Ok tt
  /\ Network.queue (InNetwork.base (snd (snd out))) = Some [zeros 4]
  /\ InNetwork._recv_buffer (snd (snd out)) = [].
Proof.
  with_socket (Network.sock (InNetwork.base (snd in4_pending8))) ltac:(fun s =>
    destruct (X21_long_datagram_is_truncated raw_decoder in4_pending8 EVENT_READ
                s (zeros 8) peer_a [] [] (zeros 4))
      as (H1 & H2 & H3 & _);
      [by_evaluation | by_evaluation | by_evaluation | by_evaluation | by_evaluation
      | by_evaluation | split; by_evaluation | by_evaluation |]).
  split; [exact H1|]. split; [exact H2|exact H3].
Defined.

(** The same event with a decoder that refuses every frame. *)
Lemma X22_witness :
  let out := InNetwork.process_events failing_decoder EVENT_READ in4_pending8 in
  fst out = Raise ValueError
  /\ InNetwork._recv_buffer (snd (snd out)) = zeros 4
  /\ Network.queue (InNetwork.base (snd (snd out))) = Some [].
Proof.
  with_socket (Network.sock (InNetwork.base (snd in4_pending8))) ltac:(fun s =>
    destruct (X22_decoder_failure_keeps_the_frame failing_decoder in4_pending8 EVENT_READ
                s (zeros 8) peer_a [] ValueError)
      as (H1 & H2 & H3 & _); [by_evaluation..|]).
  split; [exact H1|]. split; [rewrite H2|rewrite H3]; by_evaluation.
Defined.
